(** * Tsai-Wu failure criterion: a shallow embedding of [Falha_Tsai_Wu.py]

    The Python module defines the class [Tsai_Wu] (constructor and the method
    [criterio]) and the free function [tensao].  All numbers are IEEE binary64
    values, either built-in Python floats or [numpy.float64] scalars (what
    [np.sqrt] and [np.abs] return).  The two kinds carry the same values and
    differ in how an exceptional operation is signalled: a built-in float
    raises [ZeroDivisionError] / [OverflowError], a numpy scalar returns
    inf/nan.

    The program is written once, over an abstract carrier of numbers
    ([Arith]).  The properties are proved for every carrier or for binary64
    (primitive floats, which execute); the real numbers serve only to
    compare two ways of writing a formula. *)

From Stdlib Require Import ZArith Floats Reals Bool List.
From stdpp Require Import base option list.

Set Warnings "-inexact-float".

(** ** Numbers *)

(** The operations the program uses on its numbers. *)
Class Arith (T : Type) := {
  of_int : Z -> T;              (* an [int] operand converted to a float *)
  fadd : T -> T -> T;
  fsub : T -> T -> T;
  fmul : T -> T -> T;
  fdiv : T -> T -> T;
  fneg : T -> T;
  fabs : T -> T;
  fsqrt : T -> T;
  fpow : T -> positive -> T;    (* libm [pow] at an integer exponent *)
  fis_zero : T -> bool;         (* [x == 0] *)
  fis_inf : T -> bool;          (* [x] is +inf or -inf *)
  fge : T -> T -> bool          (* [x >= y] *)
}.

(** Built-in [float] or [numpy.float64]. *)
Inductive kind := Py | Np.

(** A binary operation yields a numpy scalar as soon as one operand is one
    ([numpy.float64] subclasses [float] and overrides the reflected methods). *)
Definition join (k1 k2 : kind) : kind :=
  match k1, k2 with
  | Py, Py => Py
  | _, _ => Np
  end.

(** Exceptions the arithmetic of the program can raise.  [NoSuchObject] is
    not a Python outcome: it guards the heap lookup of the model, which no
    reference handed out by the constructor can miss. *)
Inductive exn := ZeroDivisionError | OverflowError | NoSuchObject.

(** Result of a computation that may raise. *)
Inductive res (A : Type) : Type :=
| Ok (a : A)
| Err (e : exn).
Arguments Ok {A} a.
Arguments Err {A} e.

#[global] Instance res_ret : MRet res := fun A a => Ok a.
#[global] Instance res_bind : MBind res := fun A B f m =>
  match m with
  | Ok a => f a
  | Err e => Err e
  end.

(** Message of the printed line: "O material vai falhar" or
    "O material nao vai falhar". *)
Inductive verdict := VaiFalhar | NaoVaiFalhar.

Record num (T : Type) := Num { kind_of : kind; val : T }.
Arguments Num {T} kind_of val.
Arguments kind_of {T} n.
Arguments val {T} n.

Section Operations.
Context {T : Type} {AT : Arith T}.

(** An [int] literal or default argument.  Every [int] of the program is
    an operand of a float operation, where it is converted exactly; it
    never makes a result a numpy scalar. *)
Definition int (n : Z) : num T := Num Py (of_int n).

Definition add (a b : num T) : num T :=
  Num (join (kind_of a) (kind_of b)) (fadd (val a) (val b)).
Definition sub (a b : num T) : num T :=
  Num (join (kind_of a) (kind_of b)) (fsub (val a) (val b)).
Definition mul (a b : num T) : num T :=
  Num (join (kind_of a) (kind_of b)) (fmul (val a) (val b)).
Definition neg (a : num T) : num T := Num (kind_of a) (fneg (val a)).

(** [a / b]: [float.__truediv__] raises on a zero divisor, numpy does not. *)
Definition truediv (a b : num T) : res (num T) :=
  match join (kind_of a) (kind_of b) with
  | Py => if fis_zero (val b) then Err ZeroDivisionError
          else Ok (Num Py (fdiv (val a) (val b)))
  | Np => Ok (Num Np (fdiv (val a) (val b)))
  end.

(** [a ** n]: [float.__pow__] raises [OverflowError] when a finite base
    gives an infinite result, numpy does not. *)
Definition power (a : num T) (n : positive) : res (num T) :=
  let r := fpow (val a) n in
  match kind_of a with
  | Py => if fis_inf r && negb (fis_inf (val a)) then Err OverflowError
          else Ok (Num Py r)
  | Np => Ok (Num Np r)
  end.

Definition np_sqrt (a : num T) : num T := Num Np (fsqrt (val a)).
Definition np_abs (a : num T) : num T := Num Np (fabs (val a)).
Definition ge (a b : num T) : bool := fge (val a) (val b).
End Operations.

Declare Scope py_scope.
Delimit Scope py_scope with py.
Bind Scope py_scope with num.
Notation "a + b" := (add a b) : py_scope.
Notation "a - b" := (sub a b) : py_scope.
Notation "a * b" := (mul a b) : py_scope.
Notation "- a" := (neg a) : py_scope.
Notation "a / b" := (truediv a b) : py_scope.
Notation "a ** n" := (power a n) (at level 30, right associativity) : py_scope.
Notation "a >=? b" := (ge a b) (at level 70) : py_scope.
Notation "# n" := (int n) (at level 1, format "# n") : py_scope.

(** ** The object and the interpreter state *)

(** Attributes of a [Tsai_Wu] instance, in the order [__init__] sets them. *)
Record Tsai_Wu (T : Type) := mkTsai_Wu {
  F11 : num T; F33 : num T; F1 : num T; F3 : num T; F66 : num T; F44 : num T;
  F2 : num T; F22 : num T; F55 : num T;
  F12 : num T; F13 : num T; F23 : num T
}.
Arguments mkTsai_Wu {T}.
Arguments F11 {T} t. Arguments F33 {T} t. Arguments F1 {T} t.
Arguments F3 {T} t. Arguments F66 {T} t. Arguments F44 {T} t.
Arguments F2 {T} t. Arguments F22 {T} t. Arguments F55 {T} t.
Arguments F12 {T} t. Arguments F13 {T} t. Arguments F23 {T} t.

(** A line printed by [criterio]: the message and the two numbers the
    f-string interpolates. *)
Record line (T : Type) := Line {
  message : verdict; shown_R : num T; shown_k : num T
}.
Arguments Line {T}.
Arguments message {T} l.
Arguments shown_R {T} l.
Arguments shown_k {T} l.

(** References to objects are addresses in the heap. *)
Definition ref := nat.

Record state (T : Type) := State {
  heap : list (Tsai_Wu T); stdout : list (line T)
}.
Arguments State {T}.
Arguments heap {T} s.
Arguments stdout {T} s.

(** Computations on the interpreter state that may raise. *)
Definition M (T A : Type) : Type := state T -> res (A * state T).

#[global] Instance M_ret {T} : MRet (M T) := fun A a s => Ok (a, s).
#[global] Instance M_bind {T} : MBind (M T) := fun A B f m s =>
  match m s with
  | Ok (a, s') => f a s'
  | Err e => Err e
  end.

Definition lift {T A} (r : res A) : M T A := fun s =>
  match r with
  | Ok a => Ok (a, s)
  | Err e => Err e
  end.

(** Object creation: a fresh address, the heap extended. *)
Definition alloc {T} (o : Tsai_Wu T) : M T ref := fun s =>
  Ok (length (heap s), State (heap s ++ [o]) (stdout s)).

Definition load {T} (self : ref) : M T (Tsai_Wu T) := fun s =>
  match heap s !! self with
  | Some o => Ok (o, s)
  | None => Err NoSuchObject
  end.

Definition print {T} (l : line T) : M T unit := fun s =>
  Ok (tt, State (heap s) (stdout s ++ [l])).

(** ** The program *)

Section Program.
Context {T : Type} {AT : Arith T}.
Local Open Scope py_scope.

(** Body of [Tsai_Wu.__init__]: the attribute values, in source order.
    [Yc], [Yt], [Sxz] default to [None]. *)
Definition __init__ (Xc Xt Zc Zt Sxy Syz : num T)
    (Yc Yt Sxz : option (num T)) : res (Tsai_Wu T) :=
  a ← #1 / Xc; f11 ← a / Xt;
  a ← #1 / Zc; f33 ← a / Zt;
  a ← (Xc - Xt) / Xc; f1 ← a / Xt;
  a ← (Zc - Zt) / Zc; f3 ← a / Zt;
  a ← Sxy ** 2; f66 ← #1 / a;
  a ← Syz ** 2; f44 ← #1 / a;
  '(f2, f22, f55) ←
    match Yc, Yt, Sxz with
    | Some yc, Some yt, Some sxz =>
        a ← (yc - yt) / yc; f2 ← a / yt;
        a ← #1 / yc; f22 ← a / yt;
        a ← sxz ** 2; f55 ← #1 / a;
        mret (f2, f22, f55)
    | _, _, _ => mret (f1, f11, f44)
    end;
  let f12 := #4 * np_sqrt f66 -
    (#2 * f1 * np_sqrt f66 + #2 * f2 * np_sqrt f66 + f11 + f22 + f66) in
  let f13 := #4 * np_sqrt f55 -
    (#2 * f1 * np_sqrt f55 + #2 * f3 * np_sqrt f55 + f11 + f33 + f55) in
  let f23 := #4 * np_sqrt f44 -
    (#2 * f2 * np_sqrt f44 + #2 * f3 * np_sqrt f44 + f22 + f33 + f44) in
  mret (mkTsai_Wu f11 f33 f1 f3 f66 f44 f2 f22 f55 f12 f13 f23).

(** [Tsai_Wu(...)]: the attributes are computed and the new object is
    handed out; an exception in [__init__] leaves no object behind. *)
Definition Tsai_Wu_new (Xc Xt Zc Zt Sxy Syz : num T)
    (Yc Yt Sxz : option (num T)) : M T ref :=
  o ← lift (__init__ Xc Xt Zc Zt Sxy Syz Yc Yt Sxz);
  alloc o.

(** The quantities [A] and [B] and the interpolated safety factor, which
    the two branches of [criterio] write out identically. *)
Definition criterio_A (o : Tsai_Wu T) (x y z xy xz yz : num T)
    : res (num T) :=
  x2 ← x ** 2; y2 ← y ** 2; z2 ← z ** 2;
  mret (F11 o * x2 + F22 o * y2 + F33 o * z2
        + F44 o * yz + F55 o * xz + F66 o * xy
        - F12 o * x * y - F13 o * x * z - F23 o * y * z).

Definition criterio_B (o : Tsai_Wu T) (x y z : num T) : num T :=
  F1 o * x + F2 o * y + F3 o * z.

Definition fator (A B : num T) : res (num T) :=
  h ← #1 / #2; hA ← h / A;
  B2 ← B ** 2;
  mret (hA * (np_sqrt (B2 + #4 * A) - B)).

(** [Tsai_Wu.criterio]; the stress arguments default to the [int] 0. *)
Definition criterio (self : ref) (x y z xy xz yz : num T) : M T ref :=
  o ← load self;
  x2 ← lift (x ** 2); y2 ← lift (y ** 2); z2 ← lift (z ** 2);
  yz2 ← lift (yz ** 2); xz2 ← lift (xz ** 2); xy2 ← lift (xy ** 2);
  let R := F1 o * x + F2 o * y + F3 o * z
           + F11 o * x2 + F22 o * y2 + F33 o * z2
           + F44 o * yz2 + F55 o * xz2 + F66 o * xy2
           + #2 * F12 o * x * y + #2 * F13 o * x * z + #2 * F23 o * y * z in
  (if np_abs R >=? #1 then
     A ← lift (criterio_A o x y z xy xz yz);
     let B := criterio_B o x y z in
     k ← lift (fator A B);
     print (Line VaiFalhar R k)
   else
     A ← lift (criterio_A o x y z xy xz yz);
     let B := criterio_B o x y z in
     k ← lift (fator A B);
     print (Line NaoVaiFalhar R k));;
  mret self.

(** [tensao]: stresses of a hollow box section. *)
Definition tensao (h b t MF MTp FC MTt : num T)
    : res (num T * num T * num T * num T * num T * num T) :=
  h3 ← h ** 3; a ← b * h3 / #12;
  c3 ← (h - #2 * t) ** 3; c ← (b - #2 * t) * c3 / #12;
  let Ix := a - c in
  b3 ← b ** 3; a ← h * b3 / #12;
  c3 ← (b - #2 * t) ** 3; c ← (h - #2 * t) * c3 / #12;
  let Iy := a - c in
  let J := Ix + Iy in
  Q ← (h * b - (h - #2 * t) * (b - #2 * t)) * h / #2;
  h2 ← h / #2; a ← MF * h2 / Ix;
  let X := - a in
  h2 ← h / #2; s1 ← MTt * h2 / J;
  h2 ← h / #2; s2 ← MTp * h2 / J;
  s3 ← FC * Q / (Ix * (#2 * t));
  let yz := np_abs s1 + np_abs s2 + np_abs s3 in
  mret (X, #0, #0, #0, #0, yz).
End Program.

(** ** Exact arithmetic: the real numbers

    The carrier in which two groupings of a formula are compared
    ([F11_exact], [F1_exact], [factor_exact]).  It does not round, has no
    infinity and makes division and square root total: no run of the
    program is stated at this carrier. *)

#[global] Instance R_arith : Arith R := {|
  of_int := IZR;
  fadd := Rplus;
  fsub := Rminus;
  fmul := Rmult;
  fdiv := Rdiv;
  fneg := Ropp;
  fabs := Rabs;
  fsqrt := sqrt;
  fpow := fun x n => pow x (Pos.to_nat n);
  fis_zero := fun x => if Req_dec_T x 0 then true else false;
  fis_inf := fun _ => false;
  fge := fun x y => if Rge_dec x y then true else false
|}.

(** ** Machine arithmetic: binary64 *)

(** [pow(x, n)] of the C library at a positive integer exponent, taken as
    correctly rounded: the exact power of the mantissa, rounded once.  The
    library function may differ from it in the last place where the power
    is not exact.  The general statements below do not depend on the
    difference: they are about zeros and infinities, or about a formula as
    a composition of the operations of [Arith], whatever [fpow] is. *)
Definition SFpow (x : spec_float) (n : positive) : spec_float :=
  let odd := Z.odd (Zpos n) in
  match x with
  | S754_nan => S754_nan
  | S754_zero s => S754_zero (s && odd)
  | S754_infinity s => S754_infinity (s && odd)
  | S754_finite s m e =>
      binary_round prec emax (s && odd) (Pos.pow m n) (e * Zpos n)
  end.

#[global] Instance float_arith : Arith float := {|
  of_int := fun z => SF2Prim (binary_normalize prec emax z 0 false);
  fadd := PrimFloat.add;
  fsub := PrimFloat.sub;
  fmul := PrimFloat.mul;
  fdiv := PrimFloat.div;
  fneg := PrimFloat.opp;
  fabs := PrimFloat.abs;
  fsqrt := PrimFloat.sqrt;
  fpow := fun x n => SF2Prim (SFpow (Prim2SF x) n);
  fis_zero := PrimFloat.is_zero;
  fis_inf := PrimFloat.is_infinity;
  fge := fun x y => PrimFloat.leb y x
|}.

(** A built-in Python float. *)
Definition py (x : float) : num float := Num Py x.

(** The script of the module ([if __name__ == '__main__']). *)
Definition main : M float ref :=
  Tsai ← Tsai_Wu_new (py 4.206e8) (py 5.629e8) (py 1.444e8) (py 4.938e7)
                     (py 4.81e7) (py 2.203e6) None None None;
  '(X, y, z, xy, xz, yz) ←
     lift (tensao (py 20e-3) (py 2e-3) (py 1.2e-3) (py 100000e-3)
                  (py 0) (py (-1000)) (py 0));
  criterio Tsai X y z xy xz yz.

Definition empty_state {T} : state T := State [] [].

(** ** The formulas, in the arithmetic of the program

    The formulas of the specification read in the carrier of the program:
    every operation is the carrier's, applied in the order written.  Where
    the source groups a formula differently from the specification, both
    readings are given: [F11_of], [F1_of] and [factor] as the source writes
    them, [F11_closed], [F1_closed] and [factor_closed] as the
    specification does. *)

Declare Scope ar_scope.
Delimit Scope ar_scope with ar.
Notation "a + b" := (fadd a b) : ar_scope.
Notation "a - b" := (fsub a b) : ar_scope.
Notation "a * b" := (fmul a b) : ar_scope.
Notation "a / b" := (fdiv a b) : ar_scope.
Notation "- a" := (fneg a) : ar_scope.
Notation "a ^ n" := (fpow a n) : ar_scope.
Notation "# n" := (of_int n) (at level 1, format "# n") : ar_scope.

Module Formula.
Section Formulas.
Context {T : Type} {AT : Arith T}.
Local Open Scope ar_scope.

(** [1/Xc/Xt] and [(Xc-Xt)/Xc/Xt]: two divisions, as [__init__] has them. *)
Definition F11_of (Xc Xt : T) : T := #1 / Xc / Xt.
Definition F1_of (Xc Xt : T) : T := (Xc - Xt) / Xc / Xt.

(** [1/(Xc*Xt)] and [(Xc-Xt)/(Xc*Xt)]: the closed forms. *)
Definition F11_closed (Xc Xt : T) : T := #1 / (Xc * Xt).
Definition F1_closed (Xc Xt : T) : T := (Xc - Xt) / (Xc * Xt).

Definition F66_of (Sxy : T) : T := #1 / Sxy ^ 2.

(** Interaction coefficient of the axes [i], [j] with shear term [kk]. *)
Definition Fij (Fi Fj Fii Fjj Fkk : T) : T :=
  #4 * fsqrt Fkk
  - (#2 * Fi * fsqrt Fkk + #2 * Fj * fsqrt Fkk + Fii + Fjj + Fkk).

Section Evaluation.
Variable o : Tsai_Wu T.
Variables x y z xy xz yz : T.

Let f (c : Tsai_Wu T -> num T) : T := val (c o).

Definition R_index : T :=
  f F1 * x + f F2 * y + f F3 * z
  + f F11 * x ^ 2 + f F22 * y ^ 2 + f F33 * z ^ 2
  + f F44 * yz ^ 2 + f F55 * xz ^ 2 + f F66 * xy ^ 2
  + #2 * f F12 * x * y + #2 * f F13 * x * z + #2 * f F23 * y * z.

Definition A : T :=
  f F11 * x ^ 2 + f F22 * y ^ 2 + f F33 * z ^ 2
  + f F44 * yz + f F55 * xz + f F66 * xy
  - f F12 * x * y - f F13 * x * z - f F23 * y * z.

Definition B : T := f F1 * x + f F2 * y + f F3 * z.
End Evaluation.

(** [|R| >= 1]. *)
Definition fails (R : T) : bool := fge (fabs R) #1.

(** [1/2/A*(sqrt(B**2 + 4*A) - B)], as [criterio] writes the factor. *)
Definition factor (A B : T) : T :=
  #1 / #2 / A * (fsqrt (B ^ 2 + #4 * A) - B).

(** [(sqrt(B^2 + 4A) - B) / (2A)], as the specification writes it. *)
Definition factor_closed (A B : T) : T :=
  (fsqrt (B ^ 2 + #4 * A) - B) / (#2 * A).

Section SectionStress.
Variables h b t MF MTp FC MTt : T.

Definition Ix : T := b * h ^ 3 / #12 - (b - #2 * t) * (h - #2 * t) ^ 3 / #12.
Definition Iy : T := h * b ^ 3 / #12 - (h - #2 * t) * (b - #2 * t) ^ 3 / #12.
Definition J : T := Ix + Iy.
Definition Q : T := (h * b - (h - #2 * t) * (b - #2 * t)) * h / #2.
Definition X : T := - (MF * (h / #2) / Ix).
Definition YZ : T :=
  fabs (MTt * (h / #2) / J) + fabs (MTp * (h / #2) / J)
  + fabs (FC * Q / (Ix * (#2 * t))).
End SectionStress.
End Formulas.
End Formula.

(** ** The printed line as a function of the attributes *)

Section Line.
Context {T : Type} {AT : Arith T}.
Local Open Scope py_scope.

(** What one call of [criterio] prints, given the attributes of [self]. *)
Definition criterio_line (o : Tsai_Wu T) (x y z xy xz yz : num T)
    : res (line T) :=
  x2 ← x ** 2; y2 ← y ** 2; z2 ← z ** 2;
  yz2 ← yz ** 2; xz2 ← xz ** 2; xy2 ← xy ** 2;
  let R := F1 o * x + F2 o * y + F3 o * z
           + F11 o * x2 + F22 o * y2 + F33 o * z2
           + F44 o * yz2 + F55 o * xz2 + F66 o * xy2
           + #2 * F12 o * x * y + #2 * F13 o * x * z + #2 * F23 o * y * z in
  A ← criterio_A o x y z xy xz yz;
  k ← fator A (criterio_B o x y z);
  mret (Line (if np_abs R >=? #1 then VaiFalhar else NaoVaiFalhar) R k).

(** Objects that the constructor can produce. *)
Definition instance_of (o : Tsai_Wu T) : Prop :=
  exists Xc Xt Zc Zt Sxy Syz Yc Yt Sxz,
    __init__ Xc Xt Zc Zt Sxy Syz Yc Yt Sxz = Ok o.

(** At least one of the optional arguments is [None]. *)
Definition some_absent (Yc Yt Sxz : option (num T)) : Prop :=
  Yc = None \/ Yt = None \/ Sxz = None.
End Line.

(** ** Auxiliary notions for the statements *)





(** A binary64 zero of either sign. *)
Definition zeroF (x : float) : Prop := x = 0%float \/ x = (-0)%float.

(** The attributes are finite numbers, and doubling an interaction
    coefficient (as the failure index does) does not overflow. *)
Definition finite_coefficients (o : Tsai_Wu float) : bool :=
  forallb (fun c => is_finite (val c))
    [F1 o; F2 o; F3 o; F11 o; F22 o; F33 o; F44 o; F55 o; F66 o;
     F12 o; F13 o; F23 o]
  && forallb (fun c => is_finite (2 * val c)) [F12 o; F13 o; F23 o].

(** A binary64 value that is nan or has its sign bit clear. *)
Definition SF_not_negative (x : spec_float) : bool :=
  match x with
  | S754_nan => true
  | S754_zero s | S754_infinity s | S754_finite s _ _ => negb s
  end.

(** A stress argument multiplied by the printed factor [k]. *)
Definition scaled (k x : num float) : num float := (k * x)%py.

(** *** Sample objects *)

(** The material of strengths 1, 1, 1, 1, 1, 1 in binary64: F11 = F33 = F66 = F44 = 1, F1 = F3 = 0,
    and F12 = F13 = F23 = 4*1 - (0 + 0 + 1 + 1 + 1) = 1 as numpy scalars. *)
Definition unit_material64 : Tsai_Wu float :=
  mkTsai_Wu (py 1) (py 1) (py 0) (py 0) (py 1) (py 1) (py 0) (py 1) (py 1)
            (Num Np 1%float) (Num Np 1%float) (Num Np 1%float).

(** The material of the script. *)
Definition script_material : Tsai_Wu float :=
  Eval vm_compute in
    match __init__ (py 4.206e8) (py 5.629e8) (py 1.444e8) (py 4.938e7)
                        (py 4.81e7) (py 2.203e6) None None None with
    | Ok o => o
    | Err _ => unit_material64
    end.

(** A material with the three optional strengths given:
    [Tsai_Wu(2, 4, 1, 1, 1, 1, 2, 3, 5)]. *)
Definition orthotropic_material : Tsai_Wu float :=
  Eval vm_compute in
    match __init__ (py 2) (py 4) (py 1) (py 1) (py 1) (py 1)
                   (Some (py 2)) (Some (py 3)) (Some (py 5)) with
    | Ok o => o
    | Err _ => unit_material64
    end.


(** *** The claims that fail, as the specification states them *)

(** The printed safety factor is the closed form [(sqrt(B^2+4A) - B)/(2A)]. *)
Definition factor_is_closed_form : Prop :=
  forall (s s' : state float) (self r : ref) (o : Tsai_Wu float)
         (x y z xy xz yz : num float),
    heap s !! self = Some o -> instance_of o ->
    criterio self x y z xy xz yz s = Ok (r, s') ->
    exists l, stdout s' = stdout s ++ [l] /\
      val (shown_k l) =
        Formula.factor_closed
          (Formula.A o (val x) (val y) (val z) (val xy) (val xz) (val yz))
          (Formula.B o (val x) (val y) (val z)).

(** With nonzero strengths, the stored coefficients are the closed forms. *)
Definition coefficients_are_closed_forms : Prop :=
  forall (Xc Xt Zc Zt Sxy Syz : num float) (Yc Yt Sxz : option (num float))
         (o : Tsai_Wu float),
    fis_zero (val Xc) = false -> fis_zero (val Xt) = false ->
    fis_zero (val Zc) = false -> fis_zero (val Zt) = false ->
    fis_zero (val Sxy) = false -> fis_zero (val Syz) = false ->
    (forall v, Yc = Some v -> fis_zero (val v) = false) ->
    (forall v, Yt = Some v -> fis_zero (val v) = false) ->
    (forall v, Sxz = Some v -> fis_zero (val v) = false) ->
    __init__ Xc Xt Zc Zt Sxy Syz Yc Yt Sxz = Ok o ->
    val (F11 o) = Formula.F11_closed (val Xc) (val Xt) /\
    val (F33 o) = Formula.F11_closed (val Zc) (val Zt) /\
    val (F1 o) = Formula.F1_closed (val Xc) (val Xt) /\
    val (F3 o) = Formula.F1_closed (val Zc) (val Zt) /\
    val (F66 o) = Formula.F66_of (val Sxy) /\
    val (F44 o) = Formula.F66_of (val Syz) /\
    val (F12 o) = Formula.Fij (val (F1 o)) (val (F2 o)) (val (F11 o))
                              (val (F22 o)) (val (F66 o)) /\
    val (F13 o) = Formula.Fij (val (F1 o)) (val (F3 o)) (val (F11 o))
                              (val (F33 o)) (val (F55 o)) /\
    val (F23 o) = Formula.Fij (val (F2 o)) (val (F3 o)) (val (F22 o))
                              (val (F33 o)) (val (F44 o)).

(** A construction with an optional argument absent succeeds. *)
Definition partial_construction_succeeds : Prop :=
  forall (s : state float) (Xc Xt Zc Zt Sxy Syz : num float)
         (Yc Yt Sxz : option (num float)),
    some_absent Yc Yt Sxz ->
    exists self s', Tsai_Wu_new Xc Xt Zc Zt Sxy Syz Yc Yt Sxz s = Ok (self, s').

(** * Properties *)

(** ** Unfolding the monads *)

Lemma bind_Ok {A B} (a : A) (f : A -> res B) : (Ok a ≫= f) = f a.
Proof. reflexivity. Qed.

Lemma join_Np_r (k : kind) : join k Np = Np.
Proof. destruct k; reflexivity. Qed.

(** Destructs the arithmetic step at the head of a [res] computation. *)
Ltac step_res :=
  match goal with
  | |- context [@mbind res _ _ _ _ (truediv ?a ?b)] => destruct (truediv a b)
  | |- context [@mbind res _ _ _ _ (power ?a ?b)] => destruct (power a b)
  end; [rewrite ?bind_Ok | discriminate].

Section Generic.
Context {T : Type} {AT : Arith T}.
Local Open Scope py_scope.

(** [criterio] reads [self], prints one line, and returns [self]. *)
Lemma criterio_unfold (self : ref) (x y z xy xz yz : num T) (s : state T) :
  criterio self x y z xy xz yz s =
  match heap s !! self with
  | None => Err NoSuchObject
  | Some o =>
      match criterio_line o x y z xy xz yz with
      | Ok l => Ok (self, State (heap s) (stdout s ++ [l]))
      | Err e => Err e
      end
  end.
Proof.
  unfold criterio, criterio_line, load, lift, print.
  unfold mbind, M_bind, res_bind, mret, M_ret, res_ret.
  destruct (heap s !! self) as [o|]; [|reflexivity].
  destruct (x ** 2) as [x2|]; [|reflexivity].
  destruct (y ** 2) as [y2|]; [|reflexivity].
  destruct (z ** 2) as [z2|]; [|reflexivity].
  destruct (yz ** 2) as [yz2|]; [|reflexivity].
  destruct (xz ** 2) as [xz2|]; [|reflexivity].
  destruct (xy ** 2) as [xy2|]; [|reflexivity].
  match goal with |- context [if ?c then _ else _] => destruct c end.
  all: destruct (criterio_A o x y z xy xz yz) as [A|]; [|reflexivity].
  all: destruct (fator A (criterio_B o x y z)) as [k|]; reflexivity.
Qed.

Lemma Tsai_Wu_new_unfold Xc Xt Zc Zt Sxy Syz Yc Yt Sxz (s : state T) :
  Tsai_Wu_new Xc Xt Zc Zt Sxy Syz Yc Yt Sxz s =
  match __init__ Xc Xt Zc Zt Sxy Syz Yc Yt Sxz with
  | Ok o => Ok (length (heap s), State (heap s ++ [o]) (stdout s))
  | Err e => Err e
  end.
Proof.
  unfold Tsai_Wu_new, lift, alloc, mbind, M_bind.
  destruct (__init__ _ _ _ _ _ _ _ _ _); reflexivity.
Qed.

Lemma lookup_fresh (h : list (Tsai_Wu T)) (o : Tsai_Wu T) :
  (h ++ [o]) !! length h = Some o.
Proof. induction h as [|o' h IH]; [reflexivity | exact IH]. Qed.

(** The interaction coefficients are numpy scalars: they are built from
    [np.sqrt]. *)
Lemma attrs_interaction_np Xc Xt Zc Zt Sxy Syz Yc Yt Sxz (o : Tsai_Wu T) :
  __init__ Xc Xt Zc Zt Sxy Syz Yc Yt Sxz = Ok o ->
  kind_of (F12 o) = Np /\ kind_of (F13 o) = Np /\ kind_of (F23 o) = Np.
Proof.
  unfold __init__. repeat step_res.
  destruct Yc, Yt, Sxz; repeat step_res.
  all: unfold mret, res_ret; rewrite ?bind_Ok.
  all: intros [= <-]; cbn; auto.
Qed.

Lemma instance_interaction_np (o : Tsai_Wu T) :
  instance_of o -> kind_of (F12 o) = Np.
Proof.
  intros (Xc & Xt & Zc & Zt & Sxy & Syz & Yc & Yt & Sxz & H).
  exact (proj1 (attrs_interaction_np _ _ _ _ _ _ _ _ _ _ H)).
Qed.

(** The branch of [__init__]: anything short of all three optional
    arguments is treated as none of them. *)
Lemma attrs_some_absent Xc Xt Zc Zt Sxy Syz (Yc Yt Sxz : option (num T)) :
  some_absent Yc Yt Sxz ->
  __init__ Xc Xt Zc Zt Sxy Syz Yc Yt Sxz =
  __init__ Xc Xt Zc Zt Sxy Syz None None None.
Proof.
  intros H. unfold __init__.
  destruct Yc, Yt, Sxz; try reflexivity.
  destruct H as [H | [H | H]]; discriminate H.
Qed.

Lemma attrs_none_fields Xc Xt Zc Zt Sxy Syz (o : Tsai_Wu T) :
  __init__ Xc Xt Zc Zt Sxy Syz None None None = Ok o ->
  F2 o = F1 o /\ F22 o = F11 o /\ F55 o = F44 o.
Proof.
  unfold __init__. repeat step_res.
  unfold mret, res_ret; rewrite ?bind_Ok.
  intros [= <-]; cbn; auto.
Qed.
End Generic.

(** ** The two groupings agree in exact arithmetic *)

Section ExactIdentities.
Local Open Scope R_scope.

Lemma F11_exact (Xc Xt : R) :
  Xc <> 0 -> Xt <> 0 -> Formula.F11_of Xc Xt = Formula.F11_closed Xc Xt.
Proof.
  intros Hc Ht. unfold Formula.F11_of, Formula.F11_closed. cbn.
  field. split; assumption.
Qed.

Lemma F1_exact (Xc Xt : R) :
  Xc <> 0 -> Xt <> 0 -> Formula.F1_of Xc Xt = Formula.F1_closed Xc Xt.
Proof.
  intros Hc Ht. unfold Formula.F1_of, Formula.F1_closed. cbn.
  field. split; assumption.
Qed.

Lemma factor_exact (A B : R) :
  A <> 0 -> Formula.factor A B = Formula.factor_closed A B.
Proof.
  intros HA. unfold Formula.factor, Formula.factor_closed. cbn.
  field. exact HA.
Qed.
End ExactIdentities.

(** ** Binary64 arithmetic *)

Section Binary64.
Local Open Scope float_scope.

Lemma SF_zero (x : float) (s : bool) : Prim2SF x = S754_zero s -> zeroF x.
Proof.
  intros H. rewrite <- (SF2Prim_Prim2SF x), H.
  destruct s; [right | left]; reflexivity.
Qed.

Lemma is_finite_SF (x : float) :
  is_finite x = true ->
  match Prim2SF x with
  | S754_zero _ | S754_finite _ _ _ => True
  | _ => False
  end.
Proof.
  unfold is_finite, is_nan, is_infinity.
  rewrite !FloatAxioms.eqb_spec, abs_spec.
  destruct (Prim2SF x); cbn; try discriminate; auto.
  destruct s; vm_compute; discriminate.
Qed.

(** A finite number times a zero is a zero. *)
Lemma mul_finite_zero (x z : float) :
  is_finite x = true -> zeroF z -> zeroF (x * z).
Proof.
  intros Hx Hz. apply is_finite_SF in Hx.
  assert (H : exists s, Prim2SF (x * z) = S754_zero s).
  { rewrite mul_spec.
    destruct Hz as [-> | ->]; destruct (Prim2SF x); try contradiction;
      eexists; reflexivity. }
  destruct H as [s H]. exact (SF_zero _ _ H).
Qed.

Lemma mul_zero_zero (a b : float) : zeroF a -> zeroF b -> zeroF (a * b).
Proof. intros [-> | ->] [-> | ->]; vm_compute; auto. Qed.

Lemma add_zero_zero (a b : float) : zeroF a -> zeroF b -> zeroF (a + b).
Proof. intros [-> | ->] [-> | ->]; vm_compute; auto. Qed.

Lemma sub_zero_zero (a b : float) : zeroF a -> zeroF b -> zeroF (a - b).
Proof. intros [-> | ->] [-> | ->]; vm_compute; auto. Qed.

Lemma zeroF_0 : zeroF 0.
Proof. left; reflexivity. Qed.

(** The square of a zero is [+0], whoever computes it. *)
Lemma power_zero (a : num float) :
  zeroF (val a) -> exists r, power a 2 = Ok r /\ val r = 0.
Proof.
  destruct a as [k v]. cbn [val]. intros [-> | ->]; destruct k;
    eexists; (split; [vm_compute; reflexivity | reflexivity]).
Qed.

Local Ltac zeros :=
  cbn [val add mul sub fadd fmul fsub float_arith int];
  change (of_int 0) with 0; change (of_int 2) with 2;
  repeat first
    [ assumption
    | exact zeroF_0
    | apply add_zero_zero
    | apply sub_zero_zero
    | apply mul_finite_zero; [assumption|]
    | apply mul_zero_zero ].

(** The line printed for the stress state of all defaults. *)
Lemma criterio_line_zero (o : Tsai_Wu float) :
  kind_of (F12 o) = Np ->
  finite_coefficients o = true ->
  exists R k,
    criterio_line o (int 0) (int 0) (int 0) (int 0) (int 0) (int 0)
      = Ok (Line NaoVaiFalhar R k) /\
    zeroF (val R) /\ is_nan (val k) = true.
Proof.
  intros Hnp Hfin. unfold finite_coefficients in Hfin. cbn [forallb] in Hfin.
  repeat (apply andb_prop in Hfin; destruct Hfin as [? Hfin]).
  repeat match goal with H : _ && _ = true |- _ =>
    apply andb_prop in H; destruct H end.
  unfold criterio_line.
  change (power (int 0) 2) with (Ok (Num Py 0) : res (num float)).
  rewrite !bind_Ok.
  match goal with |- context [Line _ ?r _] => set (R := r) end.
  assert (HR : zeroF (val R)) by (subst R; zeros).
  unfold criterio_A.
  change (power (int 0) 2) with (Ok (Num Py 0) : res (num float)).
  rewrite !bind_Ok.
  match goal with |- context [fator ?a _] => set (A := a) end.
  assert (HA : zeroF (val A)) by (subst A; zeros).
  assert (HkA : kind_of A = Np).
  { subst A. cbn. rewrite Hnp. cbn. rewrite join_Np_r. reflexivity. }
  set (B := criterio_B o _ _ _).
  assert (HB : zeroF (val B)) by (subst B; unfold criterio_B; zeros).
  unfold fator.
  change (truediv (int 1) (int 2)) with (Ok (Num Py 0.5) : res (num float)).
  rewrite bind_Ok. unfold truediv at 1. cbn [kind_of join]. rewrite HkA.
  rewrite bind_Ok.
  destruct (power_zero B HB) as (B2 & -> & HB2). rewrite bind_Ok.
  exists R. eexists. split; [|split; [exact HR|]].
  - unfold mret, res_ret. rewrite bind_Ok. f_equal. f_equal.
    unfold ge, np_abs. cbn [val fge fabs float_arith int].
    destruct HR as [-> | ->]; reflexivity.
  - cbn [val add mul sub fadd fmul fsub fdiv fsqrt float_arith int np_sqrt].
    rewrite HB2.
    destruct HA as [-> | ->]; destruct HB as [-> | ->]; reflexivity.
Qed.

Lemma script_material_attrs :
  __init__ (py 4.206e8) (py 5.629e8) (py 1.444e8) (py 4.938e7)
                (py 4.81e7) (py 2.203e6) None None None
    = Ok script_material.
Proof. vm_compute. reflexivity. Qed.

Lemma unit_material64_attrs :
  __init__ (py 1) (py 1) (py 1) (py 1) (py 1) (py 1) None None None
    = Ok unit_material64.
Proof. vm_compute. reflexivity. Qed.

(** The run of the script: one line, "O material vai falhar". *)
Example main_output :
  main empty_state =
    Ok (0%nat, State [script_material]
         [Line VaiFalhar (Num Np 3450.6868787017411)
                         (Num Np 0.63722995179636266)]).
Proof. vm_compute. reflexivity. Qed.
End Binary64.

(** * The claims *)

Section ClaimsAnyArithmetic.
Context {T : Type} {AT : Arith T}.

(** C4. For every construction in which [Yc], [Yt] and [Sxz] are all
    absent, the stored coefficients satisfy [F2 = F1], [F22 = F11] and
    [F55 = F44] exactly (the same values, in any arithmetic). *)
Theorem Tsai_Wu_transversely_isotropic (s s' : state T) (self : ref)
    (Xc Xt Zc Zt Sxy Syz : num T) :
  Tsai_Wu_new Xc Xt Zc Zt Sxy Syz None None None s = Ok (self, s') ->
  exists o, heap s' !! self = Some o /\
    F2 o = F1 o /\ F22 o = F11 o /\ F55 o = F44 o.
Proof.
  rewrite Tsai_Wu_new_unfold.
  destruct (__init__ Xc Xt Zc Zt Sxy Syz None None None)
    as [o|] eqn:Ho; [|discriminate].
  intros [= <- <-]. exists o. split.
  - apply lookup_fresh.
  - exact (attrs_none_fields _ _ _ _ _ _ _ Ho).
Qed.

(** C9. [criterio] never mutates the object: after a call the heap, and
    with it every attribute of every object, is what it was; the handle
    returned is [self]; and a further evaluation through the returned
    handle prints the line, returns the handle or raises the exception
    that an independent evaluation on the same material does. *)
Theorem criterio_frame (s s' : state T) (self r : ref)
    (x y z xy xz yz : num T) :
  criterio self x y z xy xz yz s = Ok (r, s') ->
  r = self /\ heap s' = heap s /\
  forall x' y' z' xy' xz' yz' : num T,
    match criterio self x' y' z' xy' xz' yz' s with
    | Ok (r2, s2) =>
        exists l, s2 = State (heap s) (stdout s ++ [l]) /\
          criterio r x' y' z' xy' xz' yz' s'
            = Ok (r2, State (heap s) (stdout s' ++ [l]))
    | Err e => criterio r x' y' z' xy' xz' yz' s' = Err e
    end.
Proof.
  rewrite criterio_unfold.
  destruct (heap s !! self) as [o|] eqn:Hself; [|discriminate].
  destruct (criterio_line o x y z xy xz yz) as [l|]; [|discriminate].
  intros [= <- <-]. split; [reflexivity|]. split; [reflexivity|].
  intros x' y' z' xy' xz' yz'. rewrite !criterio_unfold.
  cbn [heap stdout]. rewrite Hself.
  destruct (criterio_line o x' y' z' xy' xz' yz') as [l'|].
  - exists l'. split; reflexivity.
  - reflexivity.
Qed.
End ClaimsAnyArithmetic.

Section ClaimsBinary64.
Local Open Scope float_scope.

Lemma Tsai_Wu_transversely_isotropic_witness :
  exists o, heap (State [unit_material64] []) !! 0%nat = Some o /\
    F2 o = F1 o /\ F22 o = F11 o /\ F55 o = F44 o.
Proof.
  apply (Tsai_Wu_transversely_isotropic empty_state
           (State [unit_material64] []) 0%nat
           (py 1) (py 1) (py 1) (py 1) (py 1) (py 1)).
  vm_compute. reflexivity.
Defined.

Lemma criterio_frame_witness :
  let s := State [unit_material64] [] in
  let s' := State [unit_material64]
              [Line VaiFalhar (Num Np 16) (Num Np 0.5)] in
  0%nat = 0%nat /\ heap s' = heap s /\
  forall x' y' z' xy' xz' yz' : num float,
    match criterio 0%nat x' y' z' xy' xz' yz' s with
    | Ok (r2, s2) =>
        exists l, s2 = State (heap s) (stdout s ++ [l]) /\
          criterio 0%nat x' y' z' xy' xz' yz' s'
            = Ok (r2, State (heap s) (stdout s' ++ [l]))
    | Err e => criterio 0%nat x' y' z' xy' xz' yz' s' = Err e
    end.
Proof.
  intros s s'.
  apply (criterio_frame s s' 0%nat 0%nat
           (int 0) (int 0) (int 0) (int 0) (int 0) (py 4)).
  vm_compute. reflexivity.
Defined.

(** C5. Called with the all-zero stress state (the defaults) on a
    material of the constructor with finite coefficients, [criterio]
    prints [R = 0] (a zero), the verdict "does not fail", and a safety
    factor that is NaN: the degenerate solve [0.5/0 * 0] shows in the
    report and is not replaced by a number. *)
Theorem criterio_zero_stress (s : state float) (self : ref)
    (o : Tsai_Wu float) :
  heap s !! self = Some o -> instance_of o ->
  finite_coefficients o = true ->
  exists R k,
    criterio self (int 0) (int 0) (int 0) (int 0) (int 0) (int 0) s
      = Ok (self, State (heap s) (stdout s ++ [Line NaoVaiFalhar R k])) /\
    zeroF (val R) /\ is_nan (val k) = true.
Proof.
  intros Hself Ho Hfin.
  destruct (criterio_line_zero o (instance_interaction_np o Ho) Hfin)
    as (R & k & Hl & HR & Hk).
  exists R, k. rewrite criterio_unfold, Hself, Hl. auto.
Qed.

Lemma criterio_zero_stress_witness :
  exists R k,
    criterio 0%nat (int 0) (int 0) (int 0) (int 0) (int 0) (int 0)
             (State [script_material] [])
      = Ok (0%nat, State [script_material]
              ([] ++ [Line NaoVaiFalhar R k])) /\
    zeroF (val R) /\ is_nan (val k) = true.
Proof.
  apply (criterio_zero_stress (State [script_material] []) 0%nat
           script_material).
  - reflexivity.
  - exists (py 4.206e8), (py 5.629e8), (py 1.444e8), (py 4.938e7),
      (py 4.81e7), (py 2.203e6), None, None, None.
    exact script_material_attrs.
  - vm_compute. reflexivity.
Defined.



(** C7, on the code: the printed factor does not bring the stress state
    to the failure surface.  On the material of strengths
    1, 1, 1, 1, 1, 1 the call with [yz = 4.0] prints [R = 16.0] and the
    factor [0.5]; the call with every stress multiplied by that factor
    prints [R = 4.0], not 1.0. *)
Theorem criterio_scaling_law_fails :
  let s := State [unit_material64] [] in
  exists k R' k',
    Tsai_Wu_new (py 1) (py 1) (py 1) (py 1) (py 1) (py 1) None None None
                empty_state = Ok (0%nat, s) /\
    criterio 0%nat (int 0) (int 0) (int 0) (int 0) (int 0) (py 4) s
      = Ok (0%nat, State (heap s) [Line VaiFalhar (Num Np 16) k]) /\
    val k = 0.5 /\
    criterio 0%nat (scaled k (int 0)) (scaled k (int 0)) (scaled k (int 0))
                   (scaled k (int 0)) (scaled k (int 0)) (scaled k (py 4)) s
      = Ok (0%nat, State (heap s) [Line VaiFalhar R' k']) /\
    val R' = 4.
Proof.
  intros s. exists (Num Np 0.5), (Num Np 4), (Num Np 0.70710678118654757).
  repeat split; vm_compute; reflexivity.
Qed.

(** The same on the run of the script: the factor it prints,
    0.637..., applied to its stress state gives [R = 1401.28...]. *)
Example script_scaling :
  exists X yz k R' k',
    tensao (py 20e-3) (py 2e-3) (py 1.2e-3) (py 100000e-3)
           (py 0) (py (-1000)) (py 0)
      = Ok (X, int 0, int 0, int 0, int 0, yz) /\
    criterio 0%nat X (int 0) (int 0) (int 0) (int 0) yz
             (State [script_material] [])
      = Ok (0%nat, State [script_material]
              [Line VaiFalhar (Num Np 3450.6868787017411) k]) /\
    criterio 0%nat (scaled k X) (scaled k (int 0)) (scaled k (int 0))
                   (scaled k (int 0)) (scaled k (int 0)) (scaled k yz)
             (State [script_material] [])
      = Ok (0%nat, State [script_material] [Line VaiFalhar R' k']) /\
    val R' = 1401.2845618845713.
Proof.
  exists (py (-660040214.93021512)), (Num Np 129367882.12632217),
    (Num Np 0.63722995179636266), (Num Np 1401.2845618845713),
    (Num Np 0.99999647321354301).
  repeat split; vm_compute; reflexivity.
Qed.
End ClaimsBinary64.

(** * Further properties of the code *)

(** ** Built-in floats and numpy scalars *)

Section Kinds.
Context {T : Type} {AT : Arith T}.
Local Open Scope py_scope.

(** A division with a numpy operand raises nothing. *)
Lemma truediv_np (a b : num T) :
  kind_of a = Np \/ kind_of b = Np ->
  a / b = Ok (Num Np (fdiv (val a) (val b))).
Proof.
  unfold truediv. intros [H | H]; rewrite H; [|rewrite join_Np_r]; reflexivity.
Qed.

Lemma power_np (a : num T) (n : positive) :
  kind_of a = Np -> a ** n = Ok (Num Np (fpow (val a) n)).
Proof. unfold power. intros ->. reflexivity. Qed.

(** The only exception of a power is [OverflowError]; of a division,
    [ZeroDivisionError]. *)
Lemma power_err (a : num T) (n : positive) (e : exn) :
  a ** n = Err e -> e = OverflowError.
Proof.
  unfold power. destruct (kind_of a); [|discriminate].
  destruct (_ && _); [|discriminate]. intros [= <-]. reflexivity.
Qed.

Lemma power_kind (a r : num T) (n : positive) :
  a ** n = Ok r -> kind_of r = kind_of a.
Proof.
  unfold power. destruct (kind_of a).
  - destruct (_ && _); [discriminate|]. intros [= <-]. reflexivity.
  - intros [= <-]. reflexivity.
Qed.

Lemma truediv_err (a b : num T) (e : exn) :
  a / b = Err e -> e = ZeroDivisionError.
Proof.
  unfold truediv. destruct (join _ _); [|discriminate].
  destruct (fis_zero _); [|discriminate]. intros [= <-]. reflexivity.
Qed.

(** Solves the kind side conditions of the two lemmas above. *)
Local Ltac np_kind :=
  cbn [kind_of add sub mul neg np_abs np_sqrt int];
  repeat match goal with H : kind_of _ = Np |- _ => rewrite H end;
  cbn [join]; rewrite ?join_Np_r;
  first [reflexivity | left; reflexivity | right; reflexivity].

(** X1. A constructor call whose strengths are all numpy scalars raises
    nothing, whatever their values (a zero strength then gives inf or nan
    coefficients instead of [ZeroDivisionError]). *)
Theorem init_numpy_never_raises (s : state T)
    (Xc Xt Zc Zt Sxy Syz : num T) (Yc Yt Sxz : option (num T)) :
  kind_of Xc = Np -> kind_of Xt = Np -> kind_of Zc = Np ->
  kind_of Zt = Np -> kind_of Sxy = Np -> kind_of Syz = Np ->
  (forall v, Yc = Some v -> kind_of v = Np) ->
  (forall v, Yt = Some v -> kind_of v = Np) ->
  (forall v, Sxz = Some v -> kind_of v = Np) ->
  exists o,
    Tsai_Wu_new Xc Xt Zc Zt Sxy Syz Yc Yt Sxz s
      = Ok (length (heap s), State (heap s ++ [o]) (stdout s)).
Proof.
  intros HXc HXt HZc HZt HSxy HSyz HYc HYt HSxz.
  rewrite Tsai_Wu_new_unfold. unfold __init__.
  rewrite !power_np by assumption.
  repeat first
    [ rewrite bind_Ok
    | rewrite truediv_np by (cbn [kind_of sub]; rewrite ?HXc, ?HXt, ?HZc, ?HZt; auto) ].
  destruct Yc as [yc|], Yt as [yt|], Sxz as [sxz|].
  all: try specialize (HYc _ eq_refl); try specialize (HYt _ eq_refl);
       try specialize (HSxz _ eq_refl).
  all: rewrite ?power_np by assumption.
  all: repeat first
    [ rewrite bind_Ok
    | rewrite truediv_np by (cbn [kind_of sub]; rewrite ?HYc, ?HYt; auto) ].
  all: unfold mret, res_ret; rewrite ?bind_Ok; eexists; reflexivity.
Qed.

(** X2. Without the optional arguments the interaction coefficients of the
    planes 1-3 and 2-3 are stored with the same value: [F13 = F23]. *)
Theorem init_default_F13_F23 (s s' : state T) (self : ref)
    (Xc Xt Zc Zt Sxy Syz : num T) :
  Tsai_Wu_new Xc Xt Zc Zt Sxy Syz None None None s = Ok (self, s') ->
  exists o, heap s' !! self = Some o /\ F13 o = F23 o.
Proof.
  rewrite Tsai_Wu_new_unfold.
  destruct (__init__ Xc Xt Zc Zt Sxy Syz None None None)
    as [o|] eqn:Ho; [|discriminate].
  intros [= <- <-]. exists o. split; [apply lookup_fresh|].
  revert Ho. unfold __init__. repeat step_res.
  unfold mret, res_ret; rewrite ?bind_Ok.
  intros [= <-]. reflexivity.
Qed.

(** X3. [criterio] raises [OverflowError], and prints nothing, when [x] is
    a built-in float whose square overflows; the square of [x] is the
    first operation that can raise. *)
Theorem criterio_overflow (s : state T) (self : ref) (o : Tsai_Wu T)
    (x y z xy xz yz : num T) :
  heap s !! self = Some o ->
  kind_of x = Py ->
  fis_inf (val x) = false ->
  fis_inf (fpow (val x) 2) = true ->
  criterio self x y z xy xz yz s = Err OverflowError.
Proof.
  intros Hself Hk Hfin Hinf.
  assert (Hp : x ** 2 = Err OverflowError).
  { unfold power. rewrite Hk, Hfin, Hinf. reflexivity. }
  rewrite criterio_unfold, Hself. unfold criterio_line.
  rewrite Hp. reflexivity.
Qed.

(** X4. Constructing a material touches nothing that exists: the new
    reference is fresh, nothing is printed, every object already on the
    heap keeps its attributes, and [criterio] on such an object prints
    the line, or raises the exception, that it did before. *)
Theorem Tsai_Wu_new_frame (s s' : state T) (r : ref)
    (Xc Xt Zc Zt Sxy Syz : num T) (Yc Yt Sxz : option (num T)) :
  Tsai_Wu_new Xc Xt Zc Zt Sxy Syz Yc Yt Sxz s = Ok (r, s') ->
  heap s !! r = None /\ stdout s' = stdout s /\
  forall (self : ref) (o : Tsai_Wu T),
    heap s !! self = Some o ->
    self <> r /\ heap s' !! self = Some o /\
    forall x y z xy xz yz : num T,
      criterio self x y z xy xz yz s' =
      match criterio self x y z xy xz yz s with
      | Ok (r0, t) => Ok (r0, State (heap s') (stdout t))
      | Err e => Err e
      end.
Proof.
  rewrite Tsai_Wu_new_unfold.
  destruct (__init__ Xc Xt Zc Zt Sxy Syz Yc Yt Sxz) as [o'|]; [|discriminate].
  intros [= <- <-]. cbn [heap stdout].
  split; [apply lookup_ge_None_2; reflexivity|]. split; [reflexivity|].
  intros self o Hself.
  assert (Hlt : (self < length (heap s))%nat)
    by (apply lookup_lt_is_Some; eexists; exact Hself).
  split; [lia|].
  assert (Hself' : (heap s ++ [o']) !! self = Some o)
    by (rewrite lookup_app_l by exact Hlt; exact Hself).
  split; [exact Hself'|].
  intros x y z xy xz yz. rewrite !criterio_unfold. cbn [heap stdout].
  rewrite Hself, Hself'.
  destruct (criterio_line o x y z xy xz yz); reflexivity.
Qed.

(** X5. [tensao] raises nothing when the height [h] and the width [b] are
    numpy scalars: every power and division then has a numpy operand (a
    degenerate section gives inf or nan stresses instead of
    [ZeroDivisionError]), and the shear stress returned is a numpy scalar. *)
Theorem tensao_numpy_never_raises (h b t MF MTp FC MTt : num T) :
  kind_of h = Np -> kind_of b = Np ->
  exists X YZ, tensao h b t MF MTp FC MTt
    = Ok (X, int 0, int 0, int 0, int 0, YZ) /\ kind_of YZ = Np.
Proof.
  intros Hh Hb. unfold tensao.
  assert (Hh' : kind_of (h - #2 * t) = Np) by np_kind.
  assert (Hb' : kind_of (b - #2 * t) = Np) by np_kind.
  rewrite !power_np by assumption.
  repeat first [rewrite bind_Ok | rewrite truediv_np by np_kind].
  eexists _, _. split; reflexivity.
Qed.
End Kinds.


Section KindsWitnesses.
Local Open Scope float_scope.

Lemma init_numpy_never_raises_witness :
  exists o,
    Tsai_Wu_new (Num Np 0) (Num Np 1) (Num Np 1) (Num Np 1) (Num Np 1)
                (Num Np 1) None None None (empty_state (T:=float))
      = Ok (length (heap (empty_state (T:=float))),
            State (heap empty_state ++ [o]) (stdout empty_state)).
Proof.
  apply (init_numpy_never_raises empty_state
           (Num Np 0) (Num Np 1) (Num Np 1) (Num Np 1) (Num Np 1) (Num Np 1)
           None None None); first [reflexivity | discriminate].
Defined.

Lemma init_default_F13_F23_witness :
  exists o, heap (State [unit_material64] []) !! 0%nat = Some o /\
    F13 o = F23 o.
Proof.
  apply (init_default_F13_F23 empty_state (State [unit_material64] []) 0%nat
           (py 1) (py 1) (py 1) (py 1) (py 1) (py 1)).
  vm_compute. reflexivity.
Defined.

Lemma criterio_overflow_witness :
  criterio 0%nat (py 1e200) (int 0) (int 0) (int 0) (int 0) (int 0)
           (State [unit_material64] []) = Err OverflowError.
Proof.
  apply (criterio_overflow (State [unit_material64] []) 0%nat unit_material64);
    vm_compute; reflexivity.
Defined.

Lemma Tsai_Wu_new_frame_witness :
  let s := State [unit_material64] [] in
  let s' := State [unit_material64; unit_material64] [] in
  heap s !! 1%nat = None /\ stdout s' = stdout s /\
  forall (self : ref) (o : Tsai_Wu float),
    heap s !! self = Some o ->
    self <> 1%nat /\ heap s' !! self = Some o /\
    forall x y z xy xz yz : num float,
      criterio self x y z xy xz yz s' =
      match criterio self x y z xy xz yz s with
      | Ok (r0, t) => Ok (r0, State (heap s') (stdout t))
      | Err e => Err e
      end.
Proof.
  intros s s'.
  apply (Tsai_Wu_new_frame s s' 1%nat
           (py 1) (py 1) (py 1) (py 1) (py 1) (py 1) None None None).
  vm_compute. reflexivity.
Defined.

Lemma tensao_numpy_never_raises_witness :
  exists X YZ,
    tensao (Num Np 0) (Num Np 0) (py 0) (py 1) (py 0) (py 1) (py 0)
      = Ok (X, int 0, int 0, int 0, int 0, YZ) /\ kind_of YZ = Np.
Proof.
  apply (tensao_numpy_never_raises (Num Np 0) (Num Np 0) (py 0) (py 1) (py 0)
           (py 1) (py 0)); reflexivity.
Defined.
End KindsWitnesses.

Section AxialZero.
Context {T : Type} {AT : Arith T}.
Local Open Scope py_scope.

Lemma truediv_py_inv (a b r : num T) :
  kind_of a = Py -> kind_of b = Py -> a / b = Ok r ->
  fis_zero (val b) = false /\ kind_of r = Py.
Proof.
  unfold truediv. intros -> ->. cbn.
  destruct (fis_zero (val b)); [discriminate|].
  intros [= <-]. auto.
Qed.

Local Ltac head_div :=
  match goal with
  | |- mbind _ (truediv ?a ?b) = _ =>
      let E := fresh "E" in
      destruct (truediv a b) eqn:E;
        [ apply truediv_py_inv in E;
            [destruct E as [? ?]; rewrite bind_Ok
            | cbn [kind_of int sub];
              repeat match goal with H : kind_of _ = Py |- _ =>
                rewrite H end; reflexivity ..]
        | rewrite (truediv_err _ _ _ E); reflexivity ]
  end.

(** X6. In any arithmetic, a built-in float zero (of either sign) among the
    four axial strengths [Xc], [Xt], [Zc], [Zt] makes the constructor raise
    [ZeroDivisionError]: only divisions come before the first power. *)
Theorem init_axial_zero (Xc Xt Zc Zt Sxy Syz : num T)
    (Yc Yt Sxz : option (num T)) :
  kind_of Xc = Py -> kind_of Xt = Py -> kind_of Zc = Py -> kind_of Zt = Py ->
  fis_zero (val Xc) = true \/ fis_zero (val Xt) = true \/
  fis_zero (val Zc) = true \/ fis_zero (val Zt) = true ->
  __init__ Xc Xt Zc Zt Sxy Syz Yc Yt Sxz = Err ZeroDivisionError.
Proof.
  intros K1 K2 K3 K4 Hz. unfold __init__.
  do 8 head_div.
  exfalso. destruct Hz as [Hz | [Hz | [Hz | Hz]]]; congruence.
Qed.
End AxialZero.

Section AxialZeroWitness.
Local Open Scope float_scope.

Lemma init_axial_zero_witness :
  __init__ (py 1) (py (-0)) (py 1) (py 1) (py 1) (py 1) None None None
    = Err ZeroDivisionError.
Proof.
  apply (init_axial_zero (py 1) (py (-0)) (py 1) (py 1) (py 1) (py 1)
           None None None); try reflexivity.
  right; left; reflexivity.
Defined.
End AxialZeroWitness.

(** ** Exceptions of [criterio] on binary64 *)

Section Errors.
Context {T : Type} {AT : Arith T}.
Local Open Scope py_scope.

Lemma criterio_A_kind (o : Tsai_Wu T) (x y z xy xz yz A : num T) :
  criterio_A o x y z xy xz yz = Ok A ->
  kind_of (F12 o) = Np -> kind_of A = Np.
Proof.
  unfold criterio_A. repeat step_res.
  unfold mret, res_ret. intros [= <-] H12.
  cbn. rewrite H12. cbn. rewrite join_Np_r. reflexivity.
Qed.

Lemma criterio_A_err (o : Tsai_Wu T) (x y z xy xz yz : num T) (e : exn) :
  criterio_A o x y z xy xz yz = Err e -> e = OverflowError.
Proof.
  unfold criterio_A.
  destruct (x ** 2) eqn:Hx; [rewrite bind_Ok | intros [= <-]; exact (power_err _ _ _ Hx)].
  destruct (y ** 2) eqn:Hy; [rewrite bind_Ok | intros [= <-]; exact (power_err _ _ _ Hy)].
  destruct (z ** 2) eqn:Hz; [rewrite bind_Ok | intros [= <-]; exact (power_err _ _ _ Hz)].
  discriminate.
Qed.
End Errors.

Section Errors64.
Local Open Scope py_scope.

Lemma fator_float (A B : num float) :
  kind_of A = Np ->
  (exists k, fator A B = Ok k) \/ fator A B = Err OverflowError.
Proof.
  intros HA. unfold fator.
  change (truediv (int 1) (int 2)) with (Ok (Num Py 0.5%float) : res (num float)).
  rewrite bind_Ok, truediv_np, bind_Ok by (right; exact HA).
  destruct (B ** 2) eqn:HB.
  - left. eexists. reflexivity.
  - right. rewrite (power_err _ _ _ HB). reflexivity.
Qed.

Lemma criterio_line_float (o : Tsai_Wu float) (x y z xy xz yz : num float) :
  kind_of (F12 o) = Np ->
  (exists l, criterio_line o x y z xy xz yz = Ok l) \/
  criterio_line o x y z xy xz yz = Err OverflowError.
Proof.
  intros H12. unfold criterio_line.
  destruct (x ** 2) eqn:Hx; [rewrite bind_Ok | right; rewrite (power_err _ _ _ Hx); reflexivity].
  destruct (y ** 2) eqn:Hy; [rewrite bind_Ok | right; rewrite (power_err _ _ _ Hy); reflexivity].
  destruct (z ** 2) eqn:Hz; [rewrite bind_Ok | right; rewrite (power_err _ _ _ Hz); reflexivity].
  destruct (yz ** 2) eqn:Hyz; [rewrite bind_Ok | right; rewrite (power_err _ _ _ Hyz); reflexivity].
  destruct (xz ** 2) eqn:Hxz; [rewrite bind_Ok | right; rewrite (power_err _ _ _ Hxz); reflexivity].
  destruct (xy ** 2) eqn:Hxy; [rewrite bind_Ok | right; rewrite (power_err _ _ _ Hxy); reflexivity].
  destruct (criterio_A o x y z xy xz yz) as [A|e] eqn:HA.
  2:{ right. rewrite (criterio_A_err _ _ _ _ _ _ _ _ HA). reflexivity. }
  rewrite bind_Ok.
  destruct (fator_float A (criterio_B o x y z) (criterio_A_kind _ _ _ _ _ _ _ _ HA H12))
    as [[k ->] | ->].
  - left. eexists. reflexivity.
  - right. reflexivity.
Qed.

(** X7. On binary64, [criterio] on a material of the constructor never
    raises [ZeroDivisionError], also when [A = 0]: the division is numpy's.
    The only exception it can raise is [OverflowError] (from the square of a
    built-in float), and with numpy stress arguments it raises nothing. *)
Theorem criterio_never_zero_division (s : state float) (self : ref)
    (o : Tsai_Wu float) (x y z xy xz yz : num float) :
  heap s !! self = Some o -> instance_of o ->
  ((exists l, criterio self x y z xy xz yz s
      = Ok (self, State (heap s) (stdout s ++ [l]))) \/
   criterio self x y z xy xz yz s = Err OverflowError) /\
  (kind_of x = Np -> kind_of y = Np -> kind_of z = Np ->
   kind_of xy = Np -> kind_of xz = Np -> kind_of yz = Np ->
   exists l, criterio self x y z xy xz yz s
      = Ok (self, State (heap s) (stdout s ++ [l]))).
Proof.
  intros Hself Ho. pose proof (instance_interaction_np o Ho) as H12.
  rewrite criterio_unfold, Hself. split.
  - destruct (criterio_line_float o x y z xy xz yz H12) as [[l ->] | ->].
    + left. eexists. reflexivity.
    + right. reflexivity.
  - intros Hx Hy Hz Hxy Hxz Hyz.
    unfold criterio_line, criterio_A.
    rewrite !power_np, !bind_Ok by assumption.
    unfold fator.
    change (truediv (int 1) (int 2)) with (Ok (Num Py 0.5%float) : res (num float)).
    rewrite bind_Ok, truediv_np, bind_Ok.
    2:{ right. cbn. rewrite H12. cbn. rewrite join_Np_r. reflexivity. }
    rewrite power_np, bind_Ok.
    2:{ unfold criterio_B. cbn. rewrite Hx, Hy, Hz, !join_Np_r. reflexivity. }
    eexists. reflexivity.
Qed.

Lemma criterio_never_zero_division_witness :
  let s := State [script_material] [] in
  let z := Num Np 0%float in
  ((exists l, criterio 0%nat z z z z z z s
      = Ok (0%nat, State (heap s) (stdout s ++ [l]))) \/
   criterio 0%nat z z z z z z s = Err OverflowError) /\
  (kind_of z = Np -> kind_of z = Np -> kind_of z = Np ->
   kind_of z = Np -> kind_of z = Np -> kind_of z = Np ->
   exists l, criterio 0%nat z z z z z z s
      = Ok (0%nat, State (heap s) (stdout s ++ [l]))).
Proof.
  intros s z.
  apply (criterio_never_zero_division s 0%nat script_material z z z z z z).
  - reflexivity.
  - exists (py 4.206e8), (py 5.629e8), (py 1.444e8), (py 4.938e7),
      (py 4.81e7), (py 2.203e6), None, None, None.
    exact script_material_attrs.
Defined.
End Errors64.

(** ** The script *)

Section Script.
Local Open Scope float_scope.

(** X16. The run of the script completes: it creates one object, prints
    one line, with the message "O material vai falhar" ([|R| >= 1]) and a
    safety factor below 1, and returns the object. *)
Theorem main_fails :
  exists o l,
    main empty_state = Ok (0%nat, State [o] [l]) /\
    message l = VaiFalhar /\
    (1 <=? abs (val (shown_R l))) = true /\
    (0 <? val (shown_k l)) = true /\ (val (shown_k l) <? 1) = true.
Proof.
  eexists _, _. split; [vm_compute; reflexivity|].
  repeat split; vm_compute; reflexivity.
Qed.
End Script.

(** * The formulas that the program computes *)

(** ** Values of completed computations, in any arithmetic *)

Section Values.
Context {T : Type} {AT : Arith T}.
Local Open Scope py_scope.

Lemma power_val (a r : num T) (n : positive) :
  a ** n = Ok r -> r = Num (kind_of a) (fpow (val a) n).
Proof.
  unfold power. destruct (kind_of a).
  - destruct (_ && _); [discriminate|]. intros [= <-]. reflexivity.
  - intros [= <-]. reflexivity.
Qed.

Lemma truediv_val (a b r : num T) :
  a / b = Ok r ->
  r = Num (join (kind_of a) (kind_of b)) (fdiv (val a) (val b)).
Proof.
  unfold truediv. destruct (join _ _).
  - destruct (fis_zero _); [discriminate|]. intros [= <-]. reflexivity.
  - intros [= <-]. reflexivity.
Qed.

(** Names the value of the arithmetic step at the head of a completed
    [res] computation. *)
Ltac val_step :=
  let E := fresh "E" in
  match goal with
  | |- context [@mbind res _ _ _ _ (power ?a ?n)] =>
      destruct (power a n) eqn:E; [apply power_val in E | discriminate]
  | |- context [@mbind res _ _ _ _ (truediv ?a ?b)] =>
      destruct (truediv a b) eqn:E; [apply truediv_val in E | discriminate]
  end; subst; rewrite ?bind_Ok.

Lemma criterio_line_val (o : Tsai_Wu T) (x y z xy xz yz : num T) (l : line T) :
  criterio_line o x y z xy xz yz = Ok l ->
  val (shown_R l) =
    Formula.R_index o (val x) (val y) (val z) (val xy) (val xz) (val yz) /\
  val (shown_k l) =
    Formula.factor
      (Formula.A o (val x) (val y) (val z) (val xy) (val xz) (val yz))
      (Formula.B o (val x) (val y) (val z)) /\
  message l =
    if Formula.fails
         (Formula.R_index o (val x) (val y) (val z) (val xy) (val xz) (val yz))
    then VaiFalhar else NaoVaiFalhar.
Proof.
  unfold criterio_line, criterio_A, fator.
  repeat val_step.
  unfold mret, res_ret. rewrite ?bind_Ok. repeat val_step.
  intros [= <-]. repeat split.
Qed.

Lemma init_val (Xc Xt Zc Zt Sxy Syz : num T) (Yc Yt Sxz : option (num T))
    (o : Tsai_Wu T) :
  __init__ Xc Xt Zc Zt Sxy Syz Yc Yt Sxz = Ok o ->
  val (F11 o) = Formula.F11_of (val Xc) (val Xt) /\
  val (F33 o) = Formula.F11_of (val Zc) (val Zt) /\
  val (F1 o) = Formula.F1_of (val Xc) (val Xt) /\
  val (F3 o) = Formula.F1_of (val Zc) (val Zt) /\
  val (F66 o) = Formula.F66_of (val Sxy) /\
  val (F44 o) = Formula.F66_of (val Syz) /\
  val (F12 o) = Formula.Fij (val (F1 o)) (val (F2 o)) (val (F11 o))
                            (val (F22 o)) (val (F66 o)) /\
  val (F13 o) = Formula.Fij (val (F1 o)) (val (F3 o)) (val (F11 o))
                            (val (F33 o)) (val (F55 o)) /\
  val (F23 o) = Formula.Fij (val (F2 o)) (val (F3 o)) (val (F22 o))
                            (val (F33 o)) (val (F44 o)) /\
  match Yc, Yt, Sxz with
  | Some yc, Some yt, Some sxz =>
      val (F2 o) = Formula.F1_of (val yc) (val yt) /\
      val (F22 o) = Formula.F11_of (val yc) (val yt) /\
      val (F55 o) = Formula.F66_of (val sxz)
  | _, _, _ => F2 o = F1 o /\ F22 o = F11 o /\ F55 o = F44 o
  end.
Proof.
  unfold __init__. repeat val_step.
  destruct Yc as [yc|], Yt as [yt|], Sxz as [sxz|]; repeat val_step.
  all: unfold mret, res_ret; rewrite ?bind_Ok.
  all: intros [= <-]; repeat split.
Qed.

Lemma tensao_val (h b t MF MTp FC MTt : num T)
    (r : num T * num T * num T * num T * num T * num T) :
  tensao h b t MF MTp FC MTt = Ok r ->
  exists X YZ,
    r = (X, int 0, int 0, int 0, int 0, YZ) /\
    val X = Formula.X (val h) (val b) (val t) (val MF) /\
    val YZ = Formula.YZ (val h) (val b) (val t) (val MTp) (val FC) (val MTt).
Proof.
  unfold tensao. repeat val_step.
  unfold mret, res_ret. intros [= <-].
  eexists _, _. repeat split.
Qed.
Lemma tensao_shear_kind (h b t MF MTp FC MTt : num T)
    (X y z xy xz YZ : num T) :
  tensao h b t MF MTp FC MTt = Ok (X, y, z, xy, xz, YZ) -> kind_of YZ = Np.
Proof.
  unfold tensao. repeat val_step.
  unfold mret, res_ret. intros [= _ _ _ _ _ <-]. reflexivity.
Qed.
End Values.


Section ClaimsFormulas.
Context {T : Type} {AT : Arith T}.

(** C1, amended.  For every stress input on which the call completes, the
    safety factor that [criterio] prints is
    [1/2/A * (sqrt(B^2 + 4A) - B)], the operations taken in this order in
    the arithmetic of the program, with [B = F1*x + F2*y + F3*z] and
    [A = F11*x^2 + F22*y^2 + F33*z^2 + F44*yz + F55*xz + F66*xy
         - F12*x*y - F13*x*z - F23*y*z]
    (shear terms linear, interaction terms subtracted), in the failing
    branch as in the other. *)
Theorem criterio_safety_factor (s s' : state T) (self r : ref)
    (o : Tsai_Wu T) (x y z xy xz yz : num T) :
  heap s !! self = Some o ->
  criterio self x y z xy xz yz s = Ok (r, s') ->
  exists l,
    s' = State (heap s) (stdout s ++ [l]) /\
    val (shown_k l) =
      Formula.factor
        (Formula.A o (val x) (val y) (val z) (val xy) (val xz) (val yz))
        (Formula.B o (val x) (val y) (val z)) /\
    (Formula.fails
       (Formula.R_index o (val x) (val y) (val z) (val xy) (val xz) (val yz))
       = true -> message l = VaiFalhar) /\
    (Formula.fails
       (Formula.R_index o (val x) (val y) (val z) (val xy) (val xz) (val yz))
       = false -> message l = NaoVaiFalhar).
Proof.
  intros Hself. rewrite criterio_unfold, Hself.
  destruct (criterio_line o x y z xy xz yz) as [l|] eqn:Hl; [|discriminate].
  intros [= <- <-]. exists l. split; [reflexivity|].
  destruct (criterio_line_val o x y z xy xz yz l Hl) as (_ & Hk & Hm).
  split; [exact Hk|]. rewrite Hm.
  split; intros ->; reflexivity.
Qed.

(** C2. For every stress input on which the call completes, [criterio]
    computes the failure index
    [R = F1*x + F2*y + F3*z + F11*x^2 + F22*y^2 + F33*z^2 + F44*yz^2
         + F55*xz^2 + F66*xy^2 + 2*F12*x*y + 2*F13*x*z + 2*F23*y*z]
    in the arithmetic of the program, and reports failure exactly when
    [|R| >= 1]. *)
Theorem criterio_failure_index (s s' : state T) (self r : ref)
    (o : Tsai_Wu T) (x y z xy xz yz : num T) :
  heap s !! self = Some o ->
  criterio self x y z xy xz yz s = Ok (r, s') ->
  exists l,
    s' = State (heap s) (stdout s ++ [l]) /\
    val (shown_R l) =
      Formula.R_index o (val x) (val y) (val z) (val xy) (val xz) (val yz) /\
    (message l = VaiFalhar <->
     Formula.fails (val (shown_R l)) = true).
Proof.
  intros Hself. rewrite criterio_unfold, Hself.
  destruct (criterio_line o x y z xy xz yz) as [l|] eqn:Hl; [|discriminate].
  intros [= <- <-]. exists l. split; [reflexivity|].
  destruct (criterio_line_val o x y z xy xz yz l Hl) as (HR & _ & Hm).
  split; [exact HR|]. rewrite Hm, HR.
  destruct (Formula.fails _); split; intros H; first [reflexivity | discriminate H].
Qed.

(** C3, amended.  For every construction that completes, the stored
    coefficients are [F11 = 1/Xc/Xt], [F33 = 1/Zc/Zt],
    [F1 = (Xc-Xt)/Xc/Xt], [F3 = (Zc-Zt)/Zc/Zt] (two divisions, left to
    right), [F66 = 1/Sxy^2], [F44 = 1/Syz^2], and each interaction
    coefficient is
    [4*sqrt(Fkk) - (2*Fi*sqrt(Fkk) + 2*Fj*sqrt(Fkk) + Fii + Fjj + Fkk)]
    for its triple: (1,2,66), (1,3,55), (2,3,44). *)
Theorem Tsai_Wu_coefficients (s s' : state T) (self : ref)
    (Xc Xt Zc Zt Sxy Syz : num T) (Yc Yt Sxz : option (num T)) :
  Tsai_Wu_new Xc Xt Zc Zt Sxy Syz Yc Yt Sxz s = Ok (self, s') ->
  exists o,
    heap s' !! self = Some o /\
    val (F11 o) = Formula.F11_of (val Xc) (val Xt) /\
    val (F33 o) = Formula.F11_of (val Zc) (val Zt) /\
    val (F1 o) = Formula.F1_of (val Xc) (val Xt) /\
    val (F3 o) = Formula.F1_of (val Zc) (val Zt) /\
    val (F66 o) = Formula.F66_of (val Sxy) /\
    val (F44 o) = Formula.F66_of (val Syz) /\
    val (F12 o) = Formula.Fij (val (F1 o)) (val (F2 o)) (val (F11 o))
                              (val (F22 o)) (val (F66 o)) /\
    val (F13 o) = Formula.Fij (val (F1 o)) (val (F3 o)) (val (F11 o))
                              (val (F33 o)) (val (F55 o)) /\
    val (F23 o) = Formula.Fij (val (F2 o)) (val (F3 o)) (val (F22 o))
                              (val (F33 o)) (val (F44 o)).
Proof.
  rewrite Tsai_Wu_new_unfold.
  destruct (__init__ Xc Xt Zc Zt Sxy Syz Yc Yt Sxz) as [o|] eqn:Ho;
    [|discriminate].
  intros [= <- <-]. exists o. split; [apply lookup_fresh|].
  destruct (init_val _ _ _ _ _ _ _ _ _ _ Ho)
    as (H11 & H33 & H1 & H3 & H66 & H44 & H12 & H13 & H23 & _).
  repeat split; assumption.
Qed.

(** C8. For every input on which the call completes, [tensao] returns
    exactly [(X, 0, 0, 0, 0, YZ)] where, in the arithmetic of the program,
    [Ix = b*h^3/12 - (b-2t)*(h-2t)^3/12],
    [Iy = h*b^3/12 - (h-2t)*(b-2t)^3/12], [J = Ix + Iy],
    [Q = (h*b - (h-2t)*(b-2t))*h/2], [X = -(MF*(h/2)/Ix)] and
    [YZ = |MTt*(h/2)/J| + |MTp*(h/2)/J| + |FC*Q/(Ix*2t)|]; the four middle
    components are the literal 0. *)
Theorem tensao_formula (h b t MF MTp FC MTt : num T)
    (r : num T * num T * num T * num T * num T * num T) :
  tensao h b t MF MTp FC MTt = Ok r ->
  exists X YZ,
    r = (X, int 0, int 0, int 0, int 0, YZ) /\
    val X = Formula.X (val h) (val b) (val t) (val MF) /\
    val YZ = Formula.YZ (val h) (val b) (val t) (val MTp) (val FC) (val MTt).
Proof. exact (tensao_val h b t MF MTp FC MTt r). Qed.

(** C10, amended.  Whenever at least one of [Yc], [Yt], [Sxz] is absent
    (also when one or two of them are given), the construction has the
    outcome of the construction with none of them: the optional values
    given are ignored and no error comes from the partial set; when it
    completes it has taken the transversely isotropic branch, [F2 = F1],
    [F22 = F11], [F55 = F44]. *)
Theorem Tsai_Wu_partial_optional (s : state T)
    (Xc Xt Zc Zt Sxy Syz : num T) (Yc Yt Sxz : option (num T)) :
  some_absent Yc Yt Sxz ->
  Tsai_Wu_new Xc Xt Zc Zt Sxy Syz Yc Yt Sxz s
    = Tsai_Wu_new Xc Xt Zc Zt Sxy Syz None None None s /\
  forall (self : ref) (s' : state T),
    Tsai_Wu_new Xc Xt Zc Zt Sxy Syz Yc Yt Sxz s = Ok (self, s') ->
    exists o, heap s' !! self = Some o /\
      F2 o = F1 o /\ F22 o = F11 o /\ F55 o = F44 o.
Proof.
  intros Habs. rewrite !Tsai_Wu_new_unfold.
  rewrite (attrs_some_absent Xc Xt Zc Zt Sxy Syz Yc Yt Sxz Habs).
  split; [reflexivity|]. intros self s'.
  destruct (__init__ Xc Xt Zc Zt Sxy Syz None None None) as [o|] eqn:Ho;
    [|discriminate].
  intros [= <- <-]. exists o. split; [apply lookup_fresh|].
  exact (attrs_none_fields _ _ _ _ _ _ _ Ho).
Qed.
End ClaimsFormulas.

(** ** The same on binary64 *)

Section ClaimsFormulas64.
Local Open Scope float_scope.

Lemma unit_material64_instance : instance_of unit_material64.
Proof.
  exists (py 1), (py 1), (py 1), (py 1), (py 1), (py 1), None, None, None.
  exact unit_material64_attrs.
Qed.

Lemma script_material_instance : instance_of script_material.
Proof.
  exists (py 4.206e8), (py 5.629e8), (py 1.444e8), (py 4.938e7),
    (py 4.81e7), (py 2.203e6), None, None, None.
  exact script_material_attrs.
Qed.

(** C1, as the specification states it, fails: the program evaluates
    [1/2/A * (sqrt(B^2 + 4A) - B)], and the quotient [1/2/A] can overflow
    where [(sqrt(B^2 + 4A) - B) / (2A)] does not.  On the material of
    strengths 1, 1, 1, 1, 1, 1 the call with [x = 1e-160] has
    [A = 1e-320], [B = 0]: it prints the factor [inf], and the closed form
    is [1.0000055664551363e+160]. *)
Lemma criterio_factor_not_closed_form : ~ factor_is_closed_form.
Proof.
  intros H.
  destruct (H (State [unit_material64] [])
              (State [unit_material64]
                 [Line NaoVaiFalhar (Num Np 9.9998886718268301e-321)
                    (Num Np infinity)])
              0%nat 0%nat unit_material64
              (py 1e-160) (int 0) (int 0) (int 0) (int 0) (int 0))
    as (l & Hl & Hk);
    [reflexivity | exact unit_material64_instance | vm_compute; reflexivity|].
  cbn in Hl. injection Hl as <-.
  apply (f_equal is_infinity) in Hk.
  vm_compute in Hk. discriminate Hk.
Qed.

Lemma criterio_safety_factor_witness :
  let s := State [unit_material64] [] in
  let X := py 1 in
  let YZ := py 4 in
  exists l,
    State [unit_material64]
      [Line VaiFalhar (Num Np 17) (Num Np 0.44721359549995798)]
      = State (heap s) (stdout s ++ [l]) /\
    val (shown_k l) =
      Formula.factor
        (Formula.A unit_material64 (val X) (val (int 0)) (val (int 0))
           (val (int 0)) (val (int 0)) (val YZ))
        (Formula.B unit_material64 (val X) (val (int 0)) (val (int 0))) /\
    (Formula.fails
       (Formula.R_index unit_material64 (val X) (val (int 0)) (val (int 0))
          (val (int 0)) (val (int 0)) (val YZ)) = true ->
     message l = VaiFalhar) /\
    (Formula.fails
       (Formula.R_index unit_material64 (val X) (val (int 0)) (val (int 0))
          (val (int 0)) (val (int 0)) (val YZ)) = false ->
     message l = NaoVaiFalhar).
Proof.
  intros s X YZ.
  apply (criterio_safety_factor s _ 0%nat 0%nat unit_material64
           X (int 0) (int 0) (int 0) (int 0) YZ).
  - reflexivity.
  - vm_compute. reflexivity.
Defined.

Lemma criterio_failure_index_witness :
  let s := State [unit_material64] [] in
  let X := py 1 in
  let YZ := py 4 in
  exists l,
    State [unit_material64]
      [Line VaiFalhar (Num Np 17) (Num Np 0.44721359549995798)]
      = State (heap s) (stdout s ++ [l]) /\
    val (shown_R l) =
      Formula.R_index unit_material64 (val X) (val (int 0)) (val (int 0))
        (val (int 0)) (val (int 0)) (val YZ) /\
    (message l = VaiFalhar <-> Formula.fails (val (shown_R l)) = true).
Proof.
  intros s X YZ.
  apply (criterio_failure_index s _ 0%nat 0%nat unit_material64
           X (int 0) (int 0) (int 0) (int 0) YZ).
  - reflexivity.
  - vm_compute. reflexivity.
Defined.

(** C3, as the specification states it, fails: the program divides twice,
    [(Xc - Xt)/Xc/Xt], and the two roundings do not give the value of
    [(Xc - Xt)/(Xc*Xt)].  For the material of the script the stored [F1] is
    [-6.0104139397000477e-10] and the closed form gives
    [-6.0104139397000466e-10]. *)
Lemma Tsai_Wu_coefficients_not_closed_forms : ~ coefficients_are_closed_forms.
Proof.
  intros H.
  assert (H1 : val (F1 script_material)
               = Formula.F1_closed (val (py 4.206e8)) (val (py 5.629e8))).
  { apply (H (py 4.206e8) (py 5.629e8) (py 1.444e8) (py 4.938e7)
             (py 4.81e7) (py 2.203e6) None None None script_material);
      first [reflexivity | discriminate | exact script_material_attrs]. }
  apply (f_equal (fun v => PrimFloat.eqb v (-6.0104139397000477e-10))) in H1.
  vm_compute in H1. discriminate H1.
Qed.

Lemma Tsai_Wu_coefficients_witness :
  let Xc := py 4.206e8 in let Xt := py 5.629e8 in
  let Zc := py 1.444e8 in let Zt := py 4.938e7 in
  let Sxy := py 4.81e7 in let Syz := py 2.203e6 in
  exists o,
    heap (State [script_material] []) !! 0%nat = Some o /\
    val (F11 o) = Formula.F11_of (val Xc) (val Xt) /\
    val (F33 o) = Formula.F11_of (val Zc) (val Zt) /\
    val (F1 o) = Formula.F1_of (val Xc) (val Xt) /\
    val (F3 o) = Formula.F1_of (val Zc) (val Zt) /\
    val (F66 o) = Formula.F66_of (val Sxy) /\
    val (F44 o) = Formula.F66_of (val Syz) /\
    val (F12 o) = Formula.Fij (val (F1 o)) (val (F2 o)) (val (F11 o))
                              (val (F22 o)) (val (F66 o)) /\
    val (F13 o) = Formula.Fij (val (F1 o)) (val (F3 o)) (val (F11 o))
                              (val (F33 o)) (val (F55 o)) /\
    val (F23 o) = Formula.Fij (val (F2 o)) (val (F3 o)) (val (F22 o))
                              (val (F33 o)) (val (F44 o)).
Proof.
  intros Xc Xt Zc Zt Sxy Syz.
  apply (Tsai_Wu_coefficients empty_state (State [script_material] []) 0%nat
           Xc Xt Zc Zt Sxy Syz None None None).
  vm_compute. reflexivity.
Defined.

Lemma tensao_formula_witness :
  let h := py 4 in let b := py 2 in let t := py 0.5 in
  let MF := py 100 in let MTp := py 3 in
  let FC := py (-1000) in let MTt := py 7 in
  exists X YZ,
    (py (-23.762376237623766), int 0, int 0, int 0, int 0,
     Num Np 1189.9649657273419) = (X, int 0, int 0, int 0, int 0, YZ) /\
    val X = Formula.X (val h) (val b) (val t) (val MF) /\
    val YZ = Formula.YZ (val h) (val b) (val t) (val MTp) (val FC) (val MTt).
Proof.
  intros h b t MF MTp FC MTt.
  apply (tensao_formula h b t MF MTp FC MTt).
  vm_compute. reflexivity.
Defined.

(** C10, as the specification states it, fails: a construction with an
    optional argument absent need not succeed.
    [Tsai_Wu(2, 4, 1, 1, 1e-200, 1, Yc=7)] raises [ZeroDivisionError]
    ([Sxy**2] underflows to 0), as it does without [Yc]. *)
Lemma Tsai_Wu_partial_optional_raises : ~ partial_construction_succeeds.
Proof.
  intros H.
  destruct (H empty_state (py 2) (py 4) (py 1) (py 1) (py 1e-200) (py 1)
              (Some (py 7)) None None) as (self & s' & Hs).
  - right. left. reflexivity.
  - vm_compute in Hs. discriminate Hs.
Qed.

Lemma Tsai_Wu_partial_optional_witness :
  let Yc := Some (py 7) in
  Tsai_Wu_new (py 2) (py 4) (py 1) (py 1) (py 1) (py 1) Yc None None
              empty_state
    = Tsai_Wu_new (py 2) (py 4) (py 1) (py 1) (py 1) (py 1) None None None
                  empty_state /\
  forall (self : ref) (s' : state float),
    Tsai_Wu_new (py 2) (py 4) (py 1) (py 1) (py 1) (py 1) Yc None None
                empty_state = Ok (self, s') ->
    exists o, heap s' !! self = Some o /\
      F2 o = F1 o /\ F22 o = F11 o /\ F55 o = F44 o.
Proof.
  intros Yc.
  apply (Tsai_Wu_partial_optional empty_state
           (py 2) (py 4) (py 1) (py 1) (py 1) (py 1) Yc None None).
  right. left. reflexivity.
Defined.


End ClaimsFormulas64.

(** ** The orthotropic branch of the constructor *)

Section Orthotropic.
Context {T : Type} {AT : Arith T}.

(** X9. In any arithmetic, when the three optional strengths are given and
    the construction completes, the object stores
    [F2 = (Yc - Yt)/Yc/Yt], [F22 = 1/Yc/Yt] and [F55 = 1/Sxz^2], computed
    as the coefficients of the axes 1 and 3 are. *)
Theorem init_orthotropic (s s' : state T) (self : ref)
    (Xc Xt Zc Zt Sxy Syz Yc Yt Sxz : num T) :
  Tsai_Wu_new Xc Xt Zc Zt Sxy Syz (Some Yc) (Some Yt) (Some Sxz) s
    = Ok (self, s') ->
  exists o,
    heap s' !! self = Some o /\
    val (F2 o) = Formula.F1_of (val Yc) (val Yt) /\
    val (F22 o) = Formula.F11_of (val Yc) (val Yt) /\
    val (F55 o) = Formula.F66_of (val Sxz).
Proof.
  rewrite Tsai_Wu_new_unfold.
  destruct (__init__ Xc Xt Zc Zt Sxy Syz (Some Yc) (Some Yt) (Some Sxz))
    as [o|] eqn:Ho; [|discriminate].
  intros [= <- <-]. exists o. split; [apply lookup_fresh|].
  destruct (init_val _ _ _ _ _ _ _ _ _ _ Ho)
    as (_ & _ & _ & _ & _ & _ & _ & _ & _ & H).
  exact H.
Qed.
End Orthotropic.

Section OrthotropicWitness.
Local Open Scope float_scope.

Lemma init_orthotropic_witness :
  exists o,
    heap (State [orthotropic_material] []) !! 0%nat = Some o /\
    val (F2 o) = Formula.F1_of (val (py 2)) (val (py 3)) /\
    val (F22 o) = Formula.F11_of (val (py 2)) (val (py 3)) /\
    val (F55 o) = Formula.F66_of (val (py 5)).
Proof.
  apply (init_orthotropic empty_state (State [orthotropic_material] [])
           0%nat (py 2) (py 4) (py 1) (py 1) (py 1) (py 1)
           (py 2) (py 3) (py 5)).
  vm_compute. reflexivity.
Defined.
End OrthotropicWitness.

(** ** Signs of the stresses of [tensao] on binary64 *)

Section Signs64.
Local Open Scope float_scope.

Lemma SFopp_round_aux (s : bool) (m e : Z) (l : location) :
  SFopp (binary_round_aux prec emax s m e l)
  = binary_round_aux prec emax (negb s) m e l.
Proof.
  unfold binary_round_aux.
  destruct (shr_fexp prec emax m e l) as [mrs e1].
  destruct (shr_fexp prec emax _ e1 loc_Exact) as [mrs2 e2].
  destruct (shr_m mrs2); [reflexivity| |reflexivity].
  destruct (Z.leb _ _); reflexivity.
Qed.

Lemma SFmul_opp_l (x y : spec_float) :
  SFmul prec emax (SFopp x) y = SFopp (SFmul prec emax x y).
Proof.
  destruct x as [sx|sx| |sx mx ex], y as [sy|sy| |sy my ey]; cbn;
    rewrite ?SFopp_round_aux; try reflexivity;
    destruct sx, sy; reflexivity.
Qed.

Lemma SFdiv_opp_l (x y : spec_float) :
  SFdiv prec emax (SFopp x) y = SFopp (SFdiv prec emax x y).
Proof.
  destruct x as [sx|sx| |sx mx ex], y as [sy|sy| |sy my ey]; cbn -[SFdiv_core_binary];
    try (destruct (SFdiv_core_binary _ _ _ _ _ _) as [[mz ez] lz]);
    rewrite ?SFopp_round_aux; try reflexivity;
    destruct sx, sy; reflexivity.
Qed.

Lemma SFabs_opp (x : spec_float) : SFabs (SFopp x) = SFabs x.
Proof. destruct x; reflexivity. Qed.

Lemma Prim2SF_eq (x y : float) : Prim2SF x = Prim2SF y -> x = y.
Proof.
  intros H. rewrite <- (SF2Prim_Prim2SF x), <- (SF2Prim_Prim2SF y), H.
  reflexivity.
Qed.

Lemma mul_opp_l (a b : float) : (- a) * b = - (a * b).
Proof.
  apply Prim2SF_eq.
  rewrite mul_spec, !opp_spec, mul_spec. apply SFmul_opp_l.
Qed.

Lemma div_opp_l (a b : float) : (- a) / b = - (a / b).
Proof.
  apply Prim2SF_eq.
  rewrite div_spec, !opp_spec, div_spec. apply SFdiv_opp_l.
Qed.

Lemma abs_opp (a : float) : abs (- a) = abs a.
Proof.
  apply Prim2SF_eq. rewrite !abs_spec, opp_spec. apply SFabs_opp.
Qed.

Local Open Scope py_scope.

Lemma mul_neg_l (a b : num float) : (neg a * b = neg (a * b))%py.
Proof. unfold mul, neg. cbn. rewrite mul_opp_l. reflexivity. Qed.

Lemma truediv_neg_l (a b : num float) :
  truediv (neg a) b
  = match truediv a b with Ok r => Ok (neg r) | Err e => Err e end.
Proof.
  unfold truediv.
  change (kind_of (neg a)) with (kind_of a).
  change (fdiv (val (neg a)) (val b)) with ((- val a) / val b)%float.
  rewrite div_opp_l.
  destruct (join _ _); [destruct (fis_zero (val b))|]; reflexivity.
Qed.

Lemma np_abs_neg (a : num float) : np_abs (neg a) = np_abs a.
Proof. unfold np_abs, neg. cbn. rewrite abs_opp. reflexivity. Qed.

(** X15. On binary64, reversing the four loads reverses the normal stress
    that [tensao] returns and leaves the shear stress as it is; the call
    with the reversed loads raises exactly the exception of the original
    call, if that one raises. *)
Theorem tensao_load_signs (h b t MF MTp FC MTt : num float) :
  tensao h b t (neg MF) (neg MTp) (neg FC) (neg MTt)
  = match tensao h b t MF MTp FC MTt with
    | Ok (X, y, z, xy, xz, YZ) => Ok (neg X, y, z, xy, xz, YZ)
    | Err e => Err e
    end.
Proof.
  unfold tensao.
  repeat (rewrite ?mul_neg_l, ?truediv_neg_l;
    match goal with
    | |- context [@mbind res _ _ _ _ (power ?a ?n)] =>
        destruct (power a n); [cbv beta iota; rewrite ?bind_Ok | reflexivity]
    | |- context [@mbind res _ _ _ _ (truediv ?a ?b)] =>
        destruct (truediv a b); [cbv beta iota; rewrite ?bind_Ok | reflexivity]
    end).
  unfold mret, res_ret. rewrite !np_abs_neg. reflexivity.
Qed.
End Signs64.

Section Shear64.
Local Open Scope float_scope.

Lemma round_aux_not_negative (m e : Z) (l : location) :
  SF_not_negative (binary_round_aux prec emax false m e l) = true.
Proof.
  unfold binary_round_aux.
  destruct (shr_fexp prec emax m e l) as [mrs e1].
  destruct (shr_fexp prec emax _ e1 loc_Exact) as [mrs2 e2].
  destruct (shr_m mrs2); [reflexivity| |reflexivity].
  destruct (Z.leb _ _); reflexivity.
Qed.

Lemma SFabs_not_negative (x : spec_float) : SF_not_negative (SFabs x) = true.
Proof. destruct x; reflexivity. Qed.

Lemma SFadd_not_negative (x y : spec_float) :
  SF_not_negative x = true -> SF_not_negative y = true ->
  SF_not_negative (SFadd prec emax x y) = true.
Proof.
  destruct x as [[]|[]| |[] mx ex], y as [[]|[]| |[] my ey];
    try discriminate; try reflexivity.
  intros _ _. unfold SFadd, cond_Zopp.
  change (Z.add (Zpos ?a) (Zpos ?b)) with (Zpos (a + b)).
  unfold binary_normalize, binary_round.
  destruct (shl_align _ _ _) as [mz ez].
  apply round_aux_not_negative.
Qed.

Lemma SFltb_not_negative (x : spec_float) :
  SF_not_negative x = true -> SFltb x (S754_zero false) = false.
Proof. destruct x as [[]|[]| |[] mx ex]; try discriminate; reflexivity. Qed.

Lemma abs_sum_not_negative (a b c : float) :
  (abs a + abs b + abs c <? 0) = false.
Proof.
  rewrite ltb_spec. change (Prim2SF 0) with (S754_zero false).
  apply SFltb_not_negative.
  rewrite !add_spec, !abs_spec.
  repeat apply SFadd_not_negative; apply SFabs_not_negative.
Qed.

(** X14. On binary64, the shear stress of a completed call of [tensao] is a
    numpy scalar and is never negative: it is a sum of three absolute
    values, so it is nan or compares as not below 0. *)
Theorem tensao_shear_not_negative (h b t MF MTp FC MTt : num float)
    (X y z xy xz YZ : num float) :
  tensao h b t MF MTp FC MTt = Ok (X, y, z, xy, xz, YZ) ->
  kind_of YZ = Np /\ (val YZ <? 0) = false.
Proof.
  intros H. destruct (tensao_val _ _ _ _ _ _ _ _ H) as (X' & YZ' & E & _ & HYZ).
  assert (EYZ : YZ = YZ') by congruence. subst YZ'.
  split.
  - exact (tensao_shear_kind _ _ _ _ _ _ _ _ _ _ _ _ _ H).
  - rewrite HYZ. apply abs_sum_not_negative.
Qed.
End Shear64.

Section Shear64Witness.
Local Open Scope float_scope.

Lemma tensao_shear_not_negative_witness :
  kind_of (Num Np 1189.9649657273419) = Np /\
  (val (Num Np 1189.9649657273419) <? 0) = false.
Proof.
  apply (tensao_shear_not_negative (py 4) (py 2) (py 0.5) (py 100) (py 3)
           (py (-1000)) (py 7)
           (py (-23.762376237623766)) (int 0) (int 0) (int 0) (int 0)
           (Num Np 1189.9649657273419)).
  vm_compute. reflexivity.
Defined.
End Shear64Witness.

(** ** A negative discriminant in [criterio] *)

Section Discriminant64.
Local Open Scope float_scope.

Lemma Prim2SF_nan (x : float) : Prim2SF x = S754_nan -> is_nan x = true.
Proof.
  intros H. unfold is_nan. rewrite FloatAxioms.eqb_spec, H. reflexivity.
Qed.

Lemma is_nan_Prim2SF (x : float) : is_nan x = true -> Prim2SF x = S754_nan.
Proof.
  unfold is_nan. rewrite FloatAxioms.eqb_spec.
  destruct (Prim2SF x) as [s|s| |s m e]; try reflexivity.
  - discriminate.
  - destruct s; discriminate.
  - unfold SFeqb, SFcompare.
    destruct s; rewrite Z.compare_refl, Pos.compare_cont_refl; discriminate.
Qed.

Lemma sqrt_negative (d : float) : (d <? 0) = true -> is_nan (PrimFloat.sqrt d) = true.
Proof.
  rewrite ltb_spec. change (Prim2SF 0) with (S754_zero false).
  intros H. apply Prim2SF_nan. rewrite sqrt_spec.
  destruct (Prim2SF d) as [s|[]| |[] m e]; try discriminate; reflexivity.
Qed.

Lemma sub_nan_l (a b : float) : is_nan a = true -> is_nan (a - b) = true.
Proof.
  intros H. apply Prim2SF_nan. rewrite sub_spec, (is_nan_Prim2SF a H).
  reflexivity.
Qed.

Lemma mul_nan_r (a b : float) : is_nan b = true -> is_nan (a * b) = true.
Proof.
  intros H. apply Prim2SF_nan. rewrite mul_spec, (is_nan_Prim2SF b H).
  destruct (Prim2SF a); reflexivity.
Qed.

(** X17. On binary64, when the discriminant [B^2 + 4A] computed by
    [criterio] is negative, a completed call prints nan as the safety
    factor: the square root of the negative number is nan and it
    propagates through the subtraction and the product. *)
Theorem criterio_negative_discriminant (s s' : state float) (self r : ref)
    (o : Tsai_Wu float) (x y z xy xz yz : num float) :
  let A := Formula.A o (val x) (val y) (val z) (val xy) (val xz) (val yz) in
  let B := Formula.B o (val x) (val y) (val z) in
  heap s !! self = Some o ->
  criterio self x y z xy xz yz s = Ok (r, s') ->
  (fpow B 2 + of_int 4 * A <? 0) = true ->
  exists l, s' = State (heap s) (stdout s ++ [l]) /\
    is_nan (val (shown_k l)) = true.
Proof.
  intros A B Hself. rewrite criterio_unfold, Hself.
  destruct (criterio_line o x y z xy xz yz) as [l|] eqn:Hl; [|discriminate].
  intros [= <- <-] HD. exists l. split; [reflexivity|].
  destruct (criterio_line_val o x y z xy xz yz l Hl) as (_ & Hk & _).
  rewrite Hk. unfold Formula.factor.
  apply mul_nan_r, sub_nan_l, sqrt_negative. exact HD.
Qed.

Lemma criterio_negative_discriminant_witness :
  let s := State [unit_material64] [] in
  exists l,
    State [unit_material64] [Line VaiFalhar (Num Np 1) (Num Np nan)]
      = State (heap s) (stdout s ++ [l]) /\
    is_nan (val (shown_k l)) = true.
Proof.
  intros s.
  apply (criterio_negative_discriminant s _ 0%nat 0%nat unit_material64
           (int 0) (int 0) (int 0) (int 0) (int 0) (py (-1))).
  - reflexivity.
  - vm_compute. reflexivity.
  - vm_compute. reflexivity.
Defined.
End Discriminant64.
